(** * XRA1200: a shallow embedding of the CircuitPython driver

    The driver in [XRA1200.py] talks to an 8-bit I2C GPIO expander.  It keeps
    a one-byte shadow copy ([bytearray([0])]) of each of the nine writable
    registers and exposes a per-pin view, [DigitalInOut].

    Python integers are unbounded, so they are [Z]; [&], [|], [~], [<<] and
    [>>] are [Z.land], [Z.lor], [Z.lnot], [Z.shiftl] and [Z.shiftr].  Methods
    run in a state-and-exception monad over the controller object, the I2C
    device handle and a log of the transactions issued through it.  A raised
    exception keeps the state reached so far, as in Python. *)

From Stdlib Require Import ZArith List String HexadecimalString Bool Lia.
Import ListNotations.

Local Open Scope string_scope.
Local Open Scope list_scope.
Local Open Scope Z_scope.

(** ** Python values and exceptions *)

(** [digitalio.Direction] has the two members the driver compares with. *)
Inductive Direction : Type := INPUT | OUTPUT.

(** The exceptions the driver can meet: [OSError] from the I2C transport,
    [AssertionError] from [assert], [AttributeError] from a failed attribute
    lookup, [ValueError] from the direction setter and from a negative shift
    count, [TypeError] from a bit operation on a non-integer. *)
Inductive exn : Type :=
| OSError
| AssertionError
| AttributeError (name : string)
| ValueError (msg : string)
| TypeError.

Inductive result (A : Type) : Type :=
| Ok (a : A)
| Raise (e : exn).
Arguments Ok {A} a.
Arguments Raise {A} e.

(** Objects that can be handed to the driver or found in its attributes. *)
Inductive pyobj : Type :=
| PyInt (n : Z)
| PyBool (b : bool)
| PyNone
| PyStr (s : string)
| PyDirection (d : Direction)
| PyBytearray (l : list Z)
| PyI2CDevice
| PyBoundMethod (name : string).

(** ** The I2C transport

    [adafruit_bus_device.i2c_device.I2CDevice] is not part of the driver: it
    is taken as an interface.  [write d buf] sends [buf]; [None] is a failed
    transaction (no ACK, bus error), which the library raises as [OSError].
    [write_then_readinto d out] sends [out] and reads one byte, the length of
    every input buffer of the driver.  [readinto d] reads one byte without a
    write before it; the driver never calls it, the library's constructor
    does when it probes the address. *)
Class I2CDevice (D : Type) : Type := {
  write : D -> list Z -> option D;
  write_then_readinto : D -> list Z -> option (Z * D);
  readinto : D -> option (Z * D)
}.

(** One entry per transaction issued through the device handle. *)
Inductive txn : Type :=
| TxWrite (buf : list Z)
| TxWriteThenRead (out : list Z)
| TxReadInto.

(** ** Register addresses *)

Definition _XRA1200_DEFAULT_I2C_ADDR : Z := 0x20.
Definition _XRA1200_REGISTER_INPUT_PORT : Z := 0x00.
Definition _XRA1200_REGISTER_OUTPUT_PORT : Z := 0x01.
Definition _XRA1200_REGISTER_INVERSION : Z := 0x02.
Definition _XRA1200_REGISTER_CONFIGURATION : Z := 0x03.
Definition _XRA1200_REGISTER_PULLUP : Z := 0x04.
Definition _XRA1200_REGISTER_INTERRUPT_ENABLE : Z := 0x05.
Definition _XRA1200_REGISTER_THREE_STATE : Z := 0x06.
Definition _XRA1200_REGISTER_INTERRUPT_STATUS : Z := 0x07.
Definition _XRA1200_REGISTER_RISING_EDGE_INTERRUPT : Z := 0x08.
Definition _XRA1200_REGISTER_FALLING_EDGE_INTERRUPT : Z := 0x09.
Definition _XRA1200_REGISTER_INPUT_FILTER : Z := 0x0A.

(** ** The controller object

    Each shadow register is a [bytearray] of length one; the field holds its
    only element. *)
Record XRA1200 : Type := mkXRA1200 {
  _p : bool;
  _output : Z;
  _inversion : Z;
  _configuration : Z;
  _pullup : Z;
  _interrupt_enable : Z;
  _three_state : Z;
  _rising_edge_interrupt : Z;
  _falling_edge_interrupt : Z;
  _input_filter : Z
}.

(** The nine shadow registers, to name one of them in a statement. *)
Inductive shadow : Type :=
| S_output | S_inversion | S_configuration | S_pullup | S_interrupt_enable
| S_three_state | S_rising_edge_interrupt | S_falling_edge_interrupt
| S_input_filter.

Definition shadow_get (s : shadow) (x : XRA1200) : Z :=
  match s with
  | S_output => _output x
  | S_inversion => _inversion x
  | S_configuration => _configuration x
  | S_pullup => _pullup x
  | S_interrupt_enable => _interrupt_enable x
  | S_three_state => _three_state x
  | S_rising_edge_interrupt => _rising_edge_interrupt x
  | S_falling_edge_interrupt => _falling_edge_interrupt x
  | S_input_filter => _input_filter x
  end.

(** [self._<s>[0] = v] *)
Definition shadow_set (s : shadow) (v : Z) (x : XRA1200) : XRA1200 :=
  match s with
  | S_output =>
      mkXRA1200 (_p x) v (_inversion x) (_configuration x) (_pullup x)
        (_interrupt_enable x) (_three_state x) (_rising_edge_interrupt x)
        (_falling_edge_interrupt x) (_input_filter x)
  | S_inversion =>
      mkXRA1200 (_p x) (_output x) v (_configuration x) (_pullup x)
        (_interrupt_enable x) (_three_state x) (_rising_edge_interrupt x)
        (_falling_edge_interrupt x) (_input_filter x)
  | S_configuration =>
      mkXRA1200 (_p x) (_output x) (_inversion x) v (_pullup x)
        (_interrupt_enable x) (_three_state x) (_rising_edge_interrupt x)
        (_falling_edge_interrupt x) (_input_filter x)
  | S_pullup =>
      mkXRA1200 (_p x) (_output x) (_inversion x) (_configuration x) v
        (_interrupt_enable x) (_three_state x) (_rising_edge_interrupt x)
        (_falling_edge_interrupt x) (_input_filter x)
  | S_interrupt_enable =>
      mkXRA1200 (_p x) (_output x) (_inversion x) (_configuration x)
        (_pullup x) v (_three_state x) (_rising_edge_interrupt x)
        (_falling_edge_interrupt x) (_input_filter x)
  | S_three_state =>
      mkXRA1200 (_p x) (_output x) (_inversion x) (_configuration x)
        (_pullup x) (_interrupt_enable x) v (_rising_edge_interrupt x)
        (_falling_edge_interrupt x) (_input_filter x)
  | S_rising_edge_interrupt =>
      mkXRA1200 (_p x) (_output x) (_inversion x) (_configuration x)
        (_pullup x) (_interrupt_enable x) (_three_state x) v
        (_falling_edge_interrupt x) (_input_filter x)
  | S_falling_edge_interrupt =>
      mkXRA1200 (_p x) (_output x) (_inversion x) (_configuration x)
        (_pullup x) (_interrupt_enable x) (_three_state x)
        (_rising_edge_interrupt x) v (_input_filter x)
  | S_input_filter =>
      mkXRA1200 (_p x) (_output x) (_inversion x) (_configuration x)
        (_pullup x) (_interrupt_enable x) (_three_state x)
        (_rising_edge_interrupt x) (_falling_edge_interrupt x) v
  end.

(** The register a shadow byte mirrors. *)
Definition shadow_register (s : shadow) : Z :=
  match s with
  | S_output => _XRA1200_REGISTER_OUTPUT_PORT
  | S_inversion => _XRA1200_REGISTER_INVERSION
  | S_configuration => _XRA1200_REGISTER_CONFIGURATION
  | S_pullup => _XRA1200_REGISTER_PULLUP
  | S_interrupt_enable => _XRA1200_REGISTER_INTERRUPT_ENABLE
  | S_three_state => _XRA1200_REGISTER_THREE_STATE
  | S_rising_edge_interrupt => _XRA1200_REGISTER_RISING_EDGE_INTERRUPT
  | S_falling_edge_interrupt => _XRA1200_REGISTER_FALLING_EDGE_INTERRUPT
  | S_input_filter => _XRA1200_REGISTER_INPUT_FILTER
  end.

(** The pin view: [_pin] and a reference [_xra] to the controller.  The
    reference is the controller of the state the method runs in, so every
    view of a controller shares its shadow registers. *)
Record DigitalInOut : Type := mkDigitalInOut { _pin : Z }.

(** The names an instance answers to: the attributes [__init__] assigns and
    the methods of the class.  The class defines neither [__getattr__] nor a
    property. *)
Definition instance_dict (x : XRA1200) : list (string * pyobj) :=
  [ ("i2c_device", PyI2CDevice);
    ("_p", PyBool (_p x));
    ("_output", PyBytearray [_output x]);
    ("_inversion", PyBytearray [_inversion x]);
    ("_configuration", PyBytearray [_configuration x]);
    ("_pullup", PyBytearray [_pullup x]);
    ("_interrupt_enable", PyBytearray [_interrupt_enable x]);
    ("_three_state", PyBytearray [_three_state x]);
    ("_rising_edge_interrupt", PyBytearray [_rising_edge_interrupt x]);
    ("_falling_edge_interrupt", PyBytearray [_falling_edge_interrupt x]);
    ("_input_filter", PyBytearray [_input_filter x]) ].

Definition class_methods : list string :=
  [ "__init__"; "read_gpio"; "write_gpio"; "set_iodir"; "get_iodir";
    "get_inv"; "set_inv"; "get_pullup"; "set_pullup";
    "get_interrupt_enable"; "set_interrupt_enable"; "get_three_state";
    "set_three_state"; "get_interrupt_status"; "get_rising_edge_interrupt";
    "set_rising_edge_interrupt"; "get_falling_edge_interrupt";
    "set_falling_edge_interrupt"; "get_input_filter"; "set_input_filter";
    "get_pin"; "write_pin"; "read_pin" ].

Fixpoint dict_lookup (name : string) (d : list (string * pyobj)) : option pyobj :=
  match d with
  | [] => None
  | (k, v) :: d' => if String.eqb name k then Some v else dict_lookup name d'
  end.

Definition has_method (name : string) : bool :=
  existsb (String.eqb name) class_methods.

(** ** The monad of methods: state, and exceptions that keep the state *)

Definition M (S A : Type) : Type := S -> result A * S.

Definition ret {S A : Type} (a : A) : M S A := fun s => (Ok a, s).

Definition raise {S A : Type} (e : exn) : M S A := fun s => (Raise e, s).

Definition bind {S A B : Type} (m : M S A) (k : A -> M S B) : M S B :=
  fun s =>
    match m s with
    | (Ok a, s') => k a s'
    | (Raise e, s') => (Raise e, s')
    end.

Declare Scope py_scope.
Delimit Scope py_scope with py.
Notation "x <- m ;; k" := (bind m (fun x => k))
  (at level 100, m at next level, right associativity) : py_scope.
Notation "m ;; k" := (bind m (fun _ => k))
  (at level 100, right associativity) : py_scope.
Local Open Scope py_scope.

(** [a << n] and [a >> n]: a negative count raises [ValueError]. *)
Definition py_lshift {S : Type} (a n : Z) : M S Z :=
  if n <? 0 then raise (ValueError "negative shift count")
  else ret (Z.shiftl a n).

Definition py_rshift {S : Type} (a n : Z) : M S Z :=
  if n <? 0 then raise (ValueError "negative shift count")
  else ret (Z.shiftr a n).

(** [o | b] and [o & b] with an integer right operand: defined on [int] and
    [bool], a [TypeError] on the other objects of the driver. *)
Definition py_or {S : Type} (o : pyobj) (b : Z) : M S Z :=
  match o with
  | PyInt n => ret (Z.lor n b)
  | PyBool c => ret (Z.lor (Z.b2z c) b)
  | _ => raise TypeError
  end.

Definition py_and {S : Type} (o : pyobj) (b : Z) : M S Z :=
  match o with
  | PyInt n => ret (Z.land n b)
  | PyBool c => ret (Z.land (Z.b2z c) b)
  | _ => raise TypeError
  end.

(** [val == digitalio.Direction.<d>]: [Direction] defines no [__eq__], so the
    comparison is identity with the member. *)
Definition py_eq_direction (val : pyobj) (d : Direction) : bool :=
  match val, d with
  | PyDirection INPUT, INPUT => true
  | PyDirection OUTPUT, OUTPUT => true
  | _, _ => false
  end.

(** Truth value of an integer. *)
Definition py_truthy (n : Z) : bool := negb (n =? 0).

Section Driver.

Context {D : Type} `{I2CDevice D}.

(** The controller, the device behind its [i2c_device] handle, and the
    transactions issued so far. *)
Record world : Type := mkWorld {
  xra : XRA1200;
  i2c_device : D;
  log : list txn
}.

Definition get_shadow (s : shadow) : M world Z :=
  fun w => (Ok (shadow_get s (xra w)), w).

Definition put_shadow (s : shadow) (v : Z) : M world unit :=
  fun w => (Ok tt, mkWorld (shadow_set s v (xra w)) (i2c_device w) (log w)).

(** [with self.i2c_device as i2c: i2c.write(buf)].  The context manager
    takes the bus lock and releases it on exit, also when the write
    raises; the lock is the transport's business. *)
Definition i2c_write (buf : list Z) : M world unit :=
  fun w =>
    match write (i2c_device w) buf with
    | Some d' => (Ok tt, mkWorld (xra w) d' (log w ++ [TxWrite buf]))
    | None =>
        (Raise OSError, mkWorld (xra w) (i2c_device w) (log w ++ [TxWrite buf]))
    end.

(** [with self.i2c_device as i2c: i2c.write_then_readinto(out, buf)],
    returning the byte left in [buf]. *)
Definition i2c_write_then_readinto (out : list Z) : M world Z :=
  fun w =>
    match write_then_readinto (i2c_device w) out with
    | Some (v, d') =>
        (Ok v, mkWorld (xra w) d' (log w ++ [TxWriteThenRead out]))
    | None =>
        (Raise OSError,
         mkWorld (xra w) (i2c_device w) (log w ++ [TxWriteThenRead out]))
    end.

(** [self.<name>]: the instance dictionary, then the class. *)
Definition getattr (name : string) : M world pyobj :=
  fun w =>
    match dict_lookup name (instance_dict (xra w)) with
    | Some v => (Ok v, w)
    | None =>
        if has_method name then (Ok (PyBoundMethod name), w)
        else (Raise (AttributeError name), w)
    end.

(** *** class XRA1200 *)

(** The shared shape of the nine setters:
    [self._<s>[0] = val & 0xFF] and then
    [i2c.write(bytearray([REG, self._<s>[0]]))]. *)
Definition set_register (s : shadow) (val : Z) : M world unit :=
  put_shadow s (Z.land val 0xFF) ;;
  b <- get_shadow s ;;
  i2c_write [shadow_register s; b].

Definition write_gpio (val : Z) : M world unit := set_register S_output val.
Definition set_iodir (val : Z) : M world unit := set_register S_configuration val.
Definition set_inv (val : Z) : M world unit := set_register S_inversion val.
Definition set_pullup (val : Z) : M world unit := set_register S_pullup val.
Definition set_interrupt_enable (val : Z) : M world unit :=
  set_register S_interrupt_enable val.
Definition set_three_state (val : Z) : M world unit :=
  set_register S_three_state val.
Definition set_rising_edge_interrupt (val : Z) : M world unit :=
  set_register S_rising_edge_interrupt val.
Definition set_falling_edge_interrupt (val : Z) : M world unit :=
  set_register S_falling_edge_interrupt val.
Definition set_input_filter (val : Z) : M world unit :=
  set_register S_input_filter val.

(** The setter of each shadow register. *)
Definition setter (s : shadow) : Z -> M world unit :=
  match s with
  | S_output => write_gpio
  | S_inversion => set_inv
  | S_configuration => set_iodir
  | S_pullup => set_pullup
  | S_interrupt_enable => set_interrupt_enable
  | S_three_state => set_three_state
  | S_rising_edge_interrupt => set_rising_edge_interrupt
  | S_falling_edge_interrupt => set_falling_edge_interrupt
  | S_input_filter => set_input_filter
  end.

Definition get_iodir : M world Z := get_shadow S_configuration.
Definition get_inv : M world Z := get_shadow S_inversion.
Definition get_pullup : M world Z := get_shadow S_pullup.
Definition get_interrupt_enable : M world Z := get_shadow S_interrupt_enable.
Definition get_three_state : M world Z := get_shadow S_three_state.
Definition get_rising_edge_interrupt : M world Z :=
  get_shadow S_rising_edge_interrupt.
Definition get_falling_edge_interrupt : M world Z :=
  get_shadow S_falling_edge_interrupt.
Definition get_input_filter : M world Z := get_shadow S_input_filter.

(** A fresh one-byte buffer, one live read, [return buf[0]]. *)
Definition read_gpio : M world Z :=
  i2c_write_then_readinto [_XRA1200_REGISTER_INPUT_PORT].

(** As [read_gpio], on INTERRUPT_STATUS.  The body is indented with tabs;
    with the eight-column tab stops of the CircuitPython lexer the [return]
    follows the [with] block. *)
Definition get_interrupt_status : M world Z :=
  i2c_write_then_readinto [_XRA1200_REGISTER_INTERRUPT_STATUS].

(** [i2c.write_then_readinto(bytearray([REG]), self._<s>)] *)
Definition read_back (s : shadow) : M world unit :=
  v <- i2c_write_then_readinto [shadow_register s] ;;
  put_shadow s v.

(** ["No I2C device at address: 0x%x" % device_address] *)
Definition no_device_message (address : Z) : string :=
  ("No I2C device at address: 0x"
   ++ NilZero.string_of_int (Z.to_hex_int address))%string.

(** [I2CDevice(i2c, address)], the library's constructor with its default
    [probe=True].  It probes the address with an empty write; when that
    raises [OSError] it retries by reading one byte; when that raises too
    it raises [ValueError].  Both probes go over the bus, before any
    register is touched. *)
Definition I2CDevice_init (address : Z) : M world unit :=
  fun w =>
    match write (i2c_device w) [] with
    | Some d' => (Ok tt, mkWorld (xra w) d' (log w ++ [TxWrite []]))
    | None =>
        match readinto (i2c_device w) with
        | Some (_, d') =>
            (Ok tt, mkWorld (xra w) d' (log w ++ [TxWrite []; TxReadInto]))
        | None =>
            (Raise (ValueError (no_device_message address)),
             mkWorld (xra w) (i2c_device w)
               (log w ++ [TxWrite []; TxReadInto]))
        end
    end.

(** [__init__]: the device handle, the fresh shadow registers, the optional
    reset, the nine read-backs. *)
Definition __init__ (address : Z) (reset p : bool) : M world unit :=
  I2CDevice_init address ;;
  (fun w => (Ok tt, mkWorld (mkXRA1200 p 0 0 0 0 0 0 0 0 0) (i2c_device w) (log w))) ;;
  (if reset then
     i2c_write [_XRA1200_REGISTER_CONFIGURATION; 0xFF] ;;
     i2c_write [_XRA1200_REGISTER_INVERSION; 0x00] ;;
     i2c_write [_XRA1200_REGISTER_OUTPUT_PORT; 0xFF] ;;
     (if p then i2c_write [_XRA1200_REGISTER_PULLUP; 0xFF]
      else i2c_write [_XRA1200_REGISTER_PULLUP; 0x00]) ;;
     i2c_write [_XRA1200_REGISTER_INTERRUPT_ENABLE; 0x00] ;;
     i2c_write [_XRA1200_REGISTER_THREE_STATE; 0x00] ;;
     i2c_write [_XRA1200_REGISTER_INTERRUPT_STATUS; 0x00] ;;
     i2c_write [_XRA1200_REGISTER_RISING_EDGE_INTERRUPT; 0x00] ;;
     i2c_write [_XRA1200_REGISTER_FALLING_EDGE_INTERRUPT; 0x00] ;;
     i2c_write [_XRA1200_REGISTER_INPUT_FILTER; 0xFF]
   else ret tt) ;;
  read_back S_output ;;
  read_back S_inversion ;;
  read_back S_configuration ;;
  read_back S_pullup ;;
  read_back S_interrupt_enable ;;
  read_back S_three_state ;;
  read_back S_rising_edge_interrupt ;;
  read_back S_falling_edge_interrupt ;;
  read_back S_input_filter.

(** [assert 0 <= pin <= 7; return DigitalInOut(pin, self)] *)
Definition get_pin (pin : Z) : M world DigitalInOut :=
  if (0 <=? pin) && (pin <=? 7) then ret (mkDigitalInOut pin)
  else raise AssertionError.

(** [self.write_gpio(self.output | (1<<pin))], or with [& ~(1<<pin)]:
    the attribute is looked up before the shift and the call. *)
Definition write_pin (pin : Z) (val : bool) : M world unit :=
  if val then
    o <- getattr "output" ;;
    m <- py_lshift 1 pin ;;
    v <- py_or o m ;;
    write_gpio v
  else
    o <- getattr "output" ;;
    m <- py_lshift 1 pin ;;
    v <- py_and o (Z.lnot m) ;;
    write_gpio v.

(** [return (self.read_gpio() >> pin) & 0x1] *)
Definition read_pin (pin : Z) : M world Z :=
  g <- read_gpio ;;
  s <- py_rshift g pin ;;
  ret (Z.land s 0x1).

(** *** class DigitalInOut

    A property's getter carries the property's name, its setter the suffix
    [_setter].  [self._xra._<s>[0]] and [self._xra.get_<s>()] both read the
    shadow byte. *)

Definition switch_to_output (self : DigitalInOut) (value : bool) : M world unit :=
  (if value then
     o <- get_shadow S_output ;;
     m <- py_lshift 1 (_pin self) ;;
     write_gpio (Z.lor o m)
   else
     o <- get_shadow S_output ;;
     m <- py_lshift 1 (_pin self) ;;
     write_gpio (Z.land o (Z.lnot m))) ;;
  c <- get_shadow S_configuration ;;
  m1 <- py_lshift 1 (_pin self) ;;
  b <- py_rshift (Z.land c m1) (_pin self) ;;
  m2 <- py_lshift 1 (_pin self) ;;
  set_iodir (Z.land b (Z.lnot m2)).

Definition switch_to_input (self : DigitalInOut) : M world unit :=
  c <- get_shadow S_configuration ;;
  m1 <- py_lshift 1 (_pin self) ;;
  b <- py_rshift (Z.land c m1) (_pin self) ;;
  m2 <- py_lshift 1 (_pin self) ;;
  set_iodir (Z.lor b m2).

Definition value (self : DigitalInOut) : M world bool :=
  g <- read_gpio ;;
  m <- py_lshift 1 (_pin self) ;;
  ret (Z.land g m >? 0).

Definition value_setter (self : DigitalInOut) (val : bool) : M world unit :=
  if val then
    o <- get_shadow S_output ;;
    m <- py_lshift 1 (_pin self) ;;
    write_gpio (Z.lor o m)
  else
    o <- get_shadow S_output ;;
    m <- py_lshift 1 (_pin self) ;;
    write_gpio (Z.land o (Z.lnot m)).

Definition direction (self : DigitalInOut) : M world Direction :=
  c <- get_shadow S_configuration ;;
  m <- py_lshift 1 (_pin self) ;;
  b <- py_rshift (Z.land c m) (_pin self) ;;
  if py_truthy b then ret INPUT else ret OUTPUT.

Definition direction_setter (self : DigitalInOut) (val : pyobj) : M world unit :=
  if py_eq_direction val INPUT then
    c <- get_iodir ;;
    m <- py_lshift 1 (_pin self) ;;
    set_iodir (Z.lor c m)
  else if py_eq_direction val OUTPUT then
    c <- get_iodir ;;
    m <- py_lshift 1 (_pin self) ;;
    set_iodir (Z.land c (Z.lnot m))
  else raise (ValueError "Expected INPUT or OUTPUT direction!").

(** The getter of a cached attribute:
    [return self._xra._<s>[0] & (1<<self._pin) > 0]. *)
Definition cached_bit (s : shadow) (self : DigitalInOut) : M world bool :=
  c <- get_shadow s ;;
  m <- py_lshift 1 (_pin self) ;;
  ret (Z.land c m >? 0).

(** The setter of a cached attribute: [set_<s>(get_<s>() | (1<<pin))] when
    [val] holds, [set_<s>(get_<s>() & ~(1<<pin))] otherwise. *)
Definition cached_bit_setter (s : shadow) (self : DigitalInOut) (val : bool)
  : M world unit :=
  if val then
    c <- get_shadow s ;;
    m <- py_lshift 1 (_pin self) ;;
    setter s (Z.lor c m)
  else
    c <- get_shadow s ;;
    m <- py_lshift 1 (_pin self) ;;
    setter s (Z.land c (Z.lnot m)).

Definition invert_polarity := cached_bit S_inversion.
Definition invert_polarity_setter := cached_bit_setter S_inversion.
Definition pullup := cached_bit S_pullup.
Definition pullup_setter := cached_bit_setter S_pullup.
Definition interrupt_enable := cached_bit S_interrupt_enable.
Definition interrupt_enable_setter := cached_bit_setter S_interrupt_enable.
Definition three_state := cached_bit S_three_state.
Definition three_state_setter := cached_bit_setter S_three_state.
Definition rising_edge_interrupt := cached_bit S_rising_edge_interrupt.
Definition rising_edge_interrupt_setter :=
  cached_bit_setter S_rising_edge_interrupt.
Definition falling_edge_interrupt := cached_bit S_falling_edge_interrupt.
Definition falling_edge_interrupt_setter :=
  cached_bit_setter S_falling_edge_interrupt.
Definition input_filter := cached_bit S_input_filter.
Definition input_filter_setter := cached_bit_setter S_input_filter.

(** [return self._xra.get_interrupt_status() & (1<<self._pin) > 0]: the
    live read comes first. *)
Definition interrupt_status (self : DigitalInOut) : M world bool :=
  s <- get_interrupt_status ;;
  m <- py_lshift 1 (_pin self) ;;
  ret (Z.land s m >? 0).

(** *** Transactions against the transport alone

    [replay d ts] runs the transactions [ts] on the device [d] and collects
    the bytes read; [None] when one of them fails. *)
Fixpoint replay (d : D) (ts : list txn) : option (list Z * D) :=
  match ts with
  | [] => Some ([], d)
  | TxWrite buf :: ts' =>
      match write d buf with
      | Some d' => replay d' ts'
      | None => None
      end
  | TxWriteThenRead out :: ts' =>
      match write_then_readinto d out with
      | Some (v, d') =>
          match replay d' ts' with
          | Some (vs, d'') => Some (v :: vs, d'')
          | None => None
          end
      | None => None
      end
  | TxReadInto :: ts' =>
      match readinto d with
      | Some (v, d') =>
          match replay d' ts' with
          | Some (vs, d'') => Some (v :: vs, d'')
          | None => None
          end
      | None => None
      end
  end.

(** A device whose INTERRUPT_STATUS register is cleared by reading it: a
    read right after a read succeeds and finds zero. *)
Definition read_clears_interrupt_status : Prop :=
  forall d v d',
    write_then_readinto d [_XRA1200_REGISTER_INTERRUPT_STATUS] = Some (v, d') ->
    exists d'',
      write_then_readinto d' [_XRA1200_REGISTER_INTERRUPT_STATUS] = Some (0, d'').

End Driver.

Arguments world D : clear implicits.

(** ** Two transports to run the driver on *)

(** A chip that always answers: a register file indexed by address.  A write
    of [[r; v]] stores [v]; a read of [[r]] returns the register, and clears
    it when [r] is INTERRUPT_STATUS. *)
Definition chip : Type := Z -> Z.

Definition chip_store (r v : Z) (c : chip) : chip :=
  fun a => if a =? r then v else c a.

#[export] Instance ideal_chip : I2CDevice chip := {
  write c buf :=
    match buf with
    | [r; v] => Some (chip_store r v c)
    | _ => Some c
    end;
  write_then_readinto c out :=
    match out with
    | [r] =>
        Some (c r,
              if r =? _XRA1200_REGISTER_INTERRUPT_STATUS then chip_store r 0 c
              else c)
    | _ => Some (0, c)
    end;
  readinto c := Some (0, c)
}.

(** No device at the address: every transaction fails. *)
#[export] Instance absent_chip : I2CDevice unit := {
  write _ _ := None;
  write_then_readinto _ _ := None;
  readinto _ := None
}.

(** The power-on register values given with the register addresses. *)
Definition power_on (p : bool) : chip :=
  fun a =>
    if a =? _XRA1200_REGISTER_OUTPUT_PORT then 0xFF
    else if a =? _XRA1200_REGISTER_CONFIGURATION then 0xFF
    else if a =? _XRA1200_REGISTER_PULLUP then (if p then 0xFF else 0x00)
    else if a =? _XRA1200_REGISTER_INPUT_FILTER then 0xFF
    else 0x00.

(** A controller after a reset of the plain variant. *)
Definition reset_xra : XRA1200 := mkXRA1200 false 0xFF 0 0xFF 0 0 0 0 0 0xFF.

(** A freshly reset plain-variant controller on a chip in its power-on
    state, with nothing on the bus yet. *)
Definition w_reset : world chip := mkWorld reset_xra (power_on false) [].

(** The chip after a run of transactions. *)
Definition chip_after (c : chip) (ts : list txn) : chip :=
  match replay c ts with
  | Some (_, c') => c'
  | None => c
  end.

(** A chip with the interrupt of pin 3 latched. *)
Definition w_latched : world chip :=
  mkWorld reset_xra
    (chip_store _XRA1200_REGISTER_INTERRUPT_STATUS 0x08 (power_on false)) [].

(** The getter of each shadow register.  OUTPUT has none: the class reads
    the pins through [read_gpio], not the output latch. *)
Definition getter {D : Type} (s : shadow) : option (M (world D) Z) :=
  match s with
  | S_output => None
  | S_inversion => Some get_inv
  | S_configuration => Some get_iodir
  | S_pullup => Some get_pullup
  | S_interrupt_enable => Some get_interrupt_enable
  | S_three_state => Some get_three_state
  | S_rising_edge_interrupt => Some get_rising_edge_interrupt
  | S_falling_edge_interrupt => Some get_falling_edge_interrupt
  | S_input_filter => Some get_input_filter
  end.

(** The transactions of [ts] that reach the bus: all of them up to and
    including the first one the device refuses. *)
Fixpoint attempted {D : Type} `{I2CDevice D} (d : D) (ts : list txn) : list txn :=
  match ts with
  | [] => []
  | TxWrite buf :: ts' =>
      TxWrite buf ::
        match write d buf with
        | Some d' => attempted d' ts'
        | None => []
        end
  | TxWriteThenRead out :: ts' =>
      TxWriteThenRead out ::
        match write_then_readinto d out with
        | Some (_, d') => attempted d' ts'
        | None => []
        end
  | TxReadInto :: ts' =>
      TxReadInto ::
        match readinto d with
        | Some (_, d') => attempted d' ts'
        | None => []
        end
  end.

(** The bytes read by the transactions of [ts] that the device answered,
    and the device when the run ended: after the last transaction, or where
    the first refusal left it. *)
Fixpoint answers {D : Type} `{I2CDevice D} (d : D) (ts : list txn) : list Z * D :=
  match ts with
  | [] => ([], d)
  | TxWrite buf :: ts' =>
      match write d buf with
      | Some d' => answers d' ts'
      | None => ([], d)
      end
  | TxWriteThenRead out :: ts' =>
      match write_then_readinto d out with
      | Some (v, d') =>
          match answers d' ts' with
          | (vs, d'') => (v :: vs, d'')
          end
      | None => ([], d)
      end
  | TxReadInto :: ts' =>
      match readinto d with
      | Some (v, d') =>
          match answers d' ts' with
          | (vs, d'') => (v :: vs, d'')
          end
      | None => ([], d)
      end
  end.

(** The shadow registers after the read-backs that returned [vs], in the
    order of the read-backs; a register not read back keeps the zero of its
    fresh [bytearray([0])]. *)
Definition shadows_read (p : bool) (vs : list Z) : XRA1200 :=
  mkXRA1200 p
    (nth 0 vs 0) (nth 1 vs 0) (nth 2 vs 0) (nth 3 vs 0) (nth 4 vs 0)
    (nth 5 vs 0) (nth 6 vs 0) (nth 7 vs 0) (nth 8 vs 0).

(** A chip that answers the first [n] transactions like [ideal_chip] and
    refuses every one after them, as when the device drops off the bus. *)
Definition fading_chip : Type := nat * chip.

#[export] Instance fading : I2CDevice fading_chip := {
  write d buf :=
    match fst d with
    | O => None
    | S n =>
        match write (snd d) buf with
        | Some c => Some (n, c)
        | None => None
        end
    end;
  write_then_readinto d out :=
    match fst d with
    | O => None
    | S n =>
        match write_then_readinto (snd d) out with
        | Some (v, c) => Some (v, (n, c))
        | None => None
        end
    end;
  readinto d :=
    match fst d with
    | O => None
    | S n =>
        match readinto (snd d) with
        | Some (v, c) => Some (v, (n, c))
        | None => None
        end
    end
}.

(** ** The register transactions of construction, after the probe *)

Definition reset_writes (p : bool) : list txn :=
  [ TxWrite [_XRA1200_REGISTER_CONFIGURATION; 0xFF];
    TxWrite [_XRA1200_REGISTER_INVERSION; 0x00];
    TxWrite [_XRA1200_REGISTER_OUTPUT_PORT; 0xFF];
    TxWrite [_XRA1200_REGISTER_PULLUP; if p then 0xFF else 0x00];
    TxWrite [_XRA1200_REGISTER_INTERRUPT_ENABLE; 0x00];
    TxWrite [_XRA1200_REGISTER_THREE_STATE; 0x00];
    TxWrite [_XRA1200_REGISTER_INTERRUPT_STATUS; 0x00];
    TxWrite [_XRA1200_REGISTER_RISING_EDGE_INTERRUPT; 0x00];
    TxWrite [_XRA1200_REGISTER_FALLING_EDGE_INTERRUPT; 0x00];
    TxWrite [_XRA1200_REGISTER_INPUT_FILTER; 0xFF] ].

Definition read_backs : list txn :=
  [ TxWriteThenRead [_XRA1200_REGISTER_OUTPUT_PORT];
    TxWriteThenRead [_XRA1200_REGISTER_INVERSION];
    TxWriteThenRead [_XRA1200_REGISTER_CONFIGURATION];
    TxWriteThenRead [_XRA1200_REGISTER_PULLUP];
    TxWriteThenRead [_XRA1200_REGISTER_INTERRUPT_ENABLE];
    TxWriteThenRead [_XRA1200_REGISTER_THREE_STATE];
    TxWriteThenRead [_XRA1200_REGISTER_RISING_EDGE_INTERRUPT];
    TxWriteThenRead [_XRA1200_REGISTER_FALLING_EDGE_INTERRUPT];
    TxWriteThenRead [_XRA1200_REGISTER_INPUT_FILTER] ].

Definition init_transactions (reset p : bool) : list txn :=
  (if reset then reset_writes p else []) ++ read_backs.

Arguments read_clears_interrupt_status D {H}.

(** * Properties *)

(** ** Bits of a byte *)

Lemma testbit_shiftl_1 (p i : Z) :
  0 <= p -> Z.testbit (Z.shiftl 1 p) i = (p =? i).
Proof.
  intros Hp. rewrite Z.shiftl_1_l. apply Z.pow2_bits_eqb. exact Hp.
Qed.

Lemma testbit_255 (i : Z) : 0 <= i <= 7 -> Z.testbit 0xFF i = true.
Proof.
  intros Hi. change 0xFF with (Z.ones 8). apply Z.ones_spec_low. lia.
Qed.

(** [(c | (1<<p)) & 0xFF] has bit [p] set and the other bits of [c]. *)
Lemma set_bit_spec (c p i : Z) :
  0 <= p <= 7 -> 0 <= i <= 7 ->
  Z.testbit (Z.land (Z.lor c (Z.shiftl 1 p)) 0xFF) i
  = if p =? i then true else Z.testbit c i.
Proof.
  intros Hp Hi.
  rewrite Z.land_spec, Z.lor_spec, testbit_shiftl_1, testbit_255 by lia.
  rewrite andb_true_r. destruct (p =? i); [apply orb_true_r | apply orb_false_r].
Qed.

(** [(c & ~(1<<p)) & 0xFF] has bit [p] clear and the other bits of [c]. *)
Lemma clear_bit_spec (c p i : Z) :
  0 <= p <= 7 -> 0 <= i <= 7 ->
  Z.testbit (Z.land (Z.land c (Z.lnot (Z.shiftl 1 p))) 0xFF) i
  = if p =? i then false else Z.testbit c i.
Proof.
  intros Hp Hi.
  rewrite !Z.land_spec, Z.lnot_spec, testbit_shiftl_1, testbit_255 by lia.
  rewrite andb_true_r. destruct (p =? i); [apply andb_false_r | apply andb_true_r].
Qed.

(** [c & (1<<p)] is [1<<p] or zero, by bit [p] of [c]. *)
Lemma land_shiftl_1 (c p : Z) :
  0 <= p ->
  Z.land c (Z.shiftl 1 p) = if Z.testbit c p then 2 ^ p else 0.
Proof.
  intros Hp. apply Z.bits_inj'. intros i Hi.
  rewrite Z.land_spec, testbit_shiftl_1 by lia.
  destruct (Z.eqb_spec p i) as [->|Hne].
  - rewrite andb_true_r. destruct (Z.testbit c i) eqn:E.
    + rewrite Z.pow2_bits_true by lia. reflexivity.
    + rewrite Z.bits_0. reflexivity.
  - rewrite andb_false_r. destruct (Z.testbit c p).
    + rewrite Z.pow2_bits_false by lia. reflexivity.
    + rewrite Z.bits_0. reflexivity.
Qed.

(** [c & (1<<p) > 0] reads bit [p]. *)
Lemma bit_gt_0 (c p : Z) :
  0 <= p -> (Z.land c (Z.shiftl 1 p) >? 0) = Z.testbit c p.
Proof.
  intros Hp. rewrite land_shiftl_1 by lia.
  destruct (Z.testbit c p).
  - apply Z.gtb_lt. apply Z.pow_pos_nonneg; lia.
  - reflexivity.
Qed.

(** [(c & (1<<p)) >> p] is bit [p] as 0 or 1. *)
Lemma bit_shiftr (c p : Z) :
  0 <= p -> Z.shiftr (Z.land c (Z.shiftl 1 p)) p = Z.b2z (Z.testbit c p).
Proof.
  intros Hp. rewrite land_shiftl_1 by lia.
  destruct (Z.testbit c p); simpl.
  - rewrite Z.shiftr_div_pow2 by lia. apply Z.div_same.
    apply Z.pow_nonzero; lia.
  - apply Z.shiftr_0_l.
Qed.

Lemma py_truthy_b2z (b : bool) : py_truthy (Z.b2z b) = b.
Proof. destruct b; reflexivity. Qed.

(** ** The shadow registers as a store *)

Lemma shadow_get_set (s : shadow) (v : Z) (x : XRA1200) :
  shadow_get s (shadow_set s v x) = v.
Proof. destruct s; reflexivity. Qed.

Lemma shadow_get_set_other (s t : shadow) (v : Z) (x : XRA1200) :
  s <> t -> shadow_get t (shadow_set s v x) = shadow_get t x.
Proof. intros Hne. destruct s, t; try reflexivity; contradiction. Qed.

Section Setters.

Context {D : Type} `{I2CDevice D}.

(** A setter stores the masked byte, then sends it: the two outcomes. *)
Lemma set_register_run (s : shadow) (val : Z) (w : world D) :
  set_register s val w
  = match write (i2c_device w) [shadow_register s; Z.land val 0xFF] with
    | Some d' =>
        (Ok tt,
         mkWorld (shadow_set s (Z.land val 0xFF) (xra w)) d'
           (log w ++ [TxWrite [shadow_register s; Z.land val 0xFF]]))
    | None =>
        (Raise OSError,
         mkWorld (shadow_set s (Z.land val 0xFF) (xra w)) (i2c_device w)
           (log w ++ [TxWrite [shadow_register s; Z.land val 0xFF]]))
    end.
Proof.
  unfold set_register, bind, put_shadow, get_shadow, i2c_write. simpl.
  rewrite shadow_get_set. reflexivity.
Qed.

Lemma setter_is_set_register (s : shadow) : setter s = set_register s.
Proof. destruct s; reflexivity. Qed.

(** C1, as the code has it.  Each of the nine setters ([write_gpio],
    [set_iodir], [set_inv], [set_pullup], [set_interrupt_enable],
    [set_three_state], [set_rising_edge_interrupt],
    [set_falling_edge_interrupt], [set_input_filter]) assigns [val & 0xFF]
    to its shadow byte before it issues its one I2C write, and the write
    carries that byte.  After the call the shadow byte is [val & 0xFF]
    whether the write succeeded or raised; the other shadow bytes are
    untouched; the call raises exactly when the transport refuses the
    write. *)
Theorem setter_caches_before_write (s : shadow) (val : Z) (w : world D) :
  let b := Z.land val 0xFF in
  let r := setter s val w in
  shadow_get s (xra (snd r)) = b
  /\ (forall t, t <> s -> shadow_get t (xra (snd r)) = shadow_get t (xra w))
  /\ log (snd r) = log w ++ [TxWrite [shadow_register s; b]]
  /\ (fst r = Raise OSError
      <-> write (i2c_device w) [shadow_register s; b] = None)
  /\ (forall d', write (i2c_device w) [shadow_register s; b] = Some d'
                 -> fst r = Ok tt /\ i2c_device (snd r) = d').
Proof.
  intros b r. subst r. rewrite setter_is_set_register, set_register_run.
  fold b. destruct (write (i2c_device w) [shadow_register s; b]) as [d1|];
    simpl.
  - split; [apply shadow_get_set|].
    split; [intros t Ht; apply shadow_get_set_other; congruence|].
    split; [reflexivity|].
    split; [split; discriminate|].
    intros d' Hd. injection Hd as ->. split; reflexivity.
  - split; [apply shadow_get_set|].
    split; [intros t Ht; apply shadow_get_set_other; congruence|].
    split; [reflexivity|].
    split; [split; reflexivity|].
    intros d' Hd. discriminate Hd.
Qed.

End Setters.

(** C1, as the claim has it, fails: with no device answering, [set_pullup]
    raises [OSError] and the PULLUP shadow byte has already changed from
    0x00 to 0xFF. *)
Lemma set_pullup_failed_write_changes_cache :
  let w := mkWorld reset_xra tt [] in
  fst (set_pullup 0xFF w) = Raise OSError
  /\ _pullup (xra w) = 0x00
  /\ _pullup (xra (snd (set_pullup 0xFF w))) = 0xFF
  /\ _pullup (xra (snd (set_pullup 0xFF w))) <> _pullup (xra w).
Proof.
  cbv zeta. repeat split; try reflexivity. vm_compute. discriminate.
Qed.

(** ** Shifts by a pin index *)

Lemma py_lshift_nonneg {S : Type} (a n : Z) (s : S) :
  0 <= n -> py_lshift a n s = (Ok (Z.shiftl a n), s).
Proof.
  intros Hn. unfold py_lshift. destruct (Z.ltb_spec n 0); [lia | reflexivity].
Qed.

Lemma py_rshift_nonneg {S : Type} (a n : Z) (s : S) :
  0 <= n -> py_rshift a n s = (Ok (Z.shiftr a n), s).
Proof.
  intros Hn. unfold py_rshift. destruct (Z.ltb_spec n 0); [lia | reflexivity].
Qed.

Section Pins.

Context {D : Type} `{I2CDevice D}.

(** The byte [switch_to_input] hands to [set_iodir]: bit [p] of the shadow
    as 0 or 1, or-ed with [1<<p]. *)
Lemma switch_to_input_run (p : Z) (w : world D) :
  0 <= p ->
  switch_to_input (mkDigitalInOut p) w
  = set_iodir
      (Z.lor (Z.b2z (Z.testbit (_configuration (xra w)) p)) (Z.shiftl 1 p)) w.
Proof.
  intros Hp. unfold switch_to_input, bind, get_shadow. simpl.
  rewrite !py_lshift_nonneg, py_rshift_nonneg by exact Hp.
  rewrite py_lshift_nonneg by exact Hp.
  rewrite bit_shiftr by exact Hp. reflexivity.
Qed.

(** The pair of calls [switch_to_output] makes. *)
Lemma switch_to_output_run (p : Z) (v : bool) (w : world D) :
  0 <= p ->
  switch_to_output (mkDigitalInOut p) v w
  = (write_gpio
       (if v then Z.lor (_output (xra w)) (Z.shiftl 1 p)
        else Z.land (_output (xra w)) (Z.lnot (Z.shiftl 1 p))) ;;
     set_iodir
       (Z.land (Z.b2z (Z.testbit (_configuration (xra w)) p))
          (Z.lnot (Z.shiftl 1 p)))) w.
Proof.
  intros Hp. unfold switch_to_output, bind, get_shadow.
  destruct v; simpl; rewrite py_lshift_nonneg by exact Hp;
    unfold write_gpio, set_iodir; rewrite !set_register_run;
    destruct (write (i2c_device w) _) as [d1|]; simpl; try reflexivity;
    rewrite !py_lshift_nonneg, py_rshift_nonneg by exact Hp;
    rewrite py_lshift_nonneg by exact Hp;
    rewrite bit_shiftr by exact Hp; reflexivity.
Qed.

(** A cached attribute's setter is one call of the register setter. *)
Lemma cached_bit_setter_run (s : shadow) (p : Z) (v : bool) (w : world D) :
  0 <= p ->
  cached_bit_setter s (mkDigitalInOut p) v w
  = set_register s
      (if v then Z.lor (shadow_get s (xra w)) (Z.shiftl 1 p)
       else Z.land (shadow_get s (xra w)) (Z.lnot (Z.shiftl 1 p))) w.
Proof.
  intros Hp. unfold cached_bit_setter, bind, get_shadow.
  destruct v; simpl; rewrite py_lshift_nonneg by exact Hp;
    rewrite setter_is_set_register; reflexivity.
Qed.

(** A cached attribute's getter reads bit [p] of the shadow byte and
    leaves the state as it is. *)
Lemma cached_bit_run (s : shadow) (p : Z) (w : world D) :
  0 <= p ->
  cached_bit s (mkDigitalInOut p) w
  = (Ok (Z.testbit (shadow_get s (xra w)) p), w).
Proof.
  intros Hp. unfold cached_bit, bind, get_shadow, ret. simpl.
  rewrite py_lshift_nonneg by exact Hp. rewrite bit_gt_0 by exact Hp.
  reflexivity.
Qed.

(** C4.  For a pin index [p] in [0,7], [switch_to_output(True)] first
    sends the write of the OUTPUT register, with bit [p] set, to the device,
    and only then the write of the CONFIGURATION register, with bit [p]
    clear.  The three runs: the device refuses the OUTPUT write, and the
    call raises [OSError] with that one transaction issued and no
    CONFIGURATION write; it accepts the OUTPUT write and refuses the
    CONFIGURATION write, and the call raises after both, in this order; it
    accepts both, and the call returns with the device having received the
    value and then the direction. *)
Theorem switch_to_output_value_before_direction (p : Z) (w : world D) :
  0 <= p <= 7 ->
  let v1 := Z.land (Z.lor (_output (xra w)) (Z.shiftl 1 p)) 0xFF in
  let v2 :=
    Z.land (Z.land (Z.b2z (Z.testbit (_configuration (xra w)) p))
              (Z.lnot (Z.shiftl 1 p))) 0xFF in
  let b1 := [_XRA1200_REGISTER_OUTPUT_PORT; v1] in
  let b2 := [_XRA1200_REGISTER_CONFIGURATION; v2] in
  let x1 := shadow_set S_output v1 (xra w) in
  let x2 := shadow_set S_configuration v2 x1 in
  let r := switch_to_output (mkDigitalInOut p) true w in
  Z.testbit v1 p = true
  /\ Z.testbit v2 p = false
  /\ (write (i2c_device w) b1 = None ->
      r = (Raise OSError,
           mkWorld x1 (i2c_device w) (log w ++ [TxWrite b1])))
  /\ (forall d1,
        write (i2c_device w) b1 = Some d1 ->
        write d1 b2 = None ->
        r = (Raise OSError,
             mkWorld x2 d1 (log w ++ [TxWrite b1; TxWrite b2])))
  /\ (forall d1 d2,
        write (i2c_device w) b1 = Some d1 ->
        write d1 b2 = Some d2 ->
        r = (Ok tt, mkWorld x2 d2 (log w ++ [TxWrite b1; TxWrite b2]))).
Proof.
  intros Hp v1 v2 b1 b2 x1 x2 r.
  split.
  { unfold v1. rewrite set_bit_spec by lia. rewrite Z.eqb_refl. reflexivity. }
  split.
  { unfold v2. rewrite clear_bit_spec by lia. rewrite Z.eqb_refl.
    reflexivity. }
  assert (Hrun : r
                 = match write (i2c_device w) b1 with
                   | None =>
                       (Raise OSError,
                        mkWorld x1 (i2c_device w) (log w ++ [TxWrite b1]))
                   | Some d1 =>
                       match write d1 b2 with
                       | None =>
                           (Raise OSError,
                            mkWorld x2 d1 (log w ++ [TxWrite b1; TxWrite b2]))
                       | Some d2 =>
                           (Ok tt,
                            mkWorld x2 d2 (log w ++ [TxWrite b1; TxWrite b2]))
                       end
                   end).
  { subst r. rewrite switch_to_output_run by lia.
    unfold bind, write_gpio, set_iodir. rewrite set_register_run.
    cbn [shadow_register]. fold v1. fold b1. fold x1.
    destruct (write (i2c_device w) b1) as [d1|]; [|reflexivity].
    rewrite set_register_run. cbn [shadow_register i2c_device xra log].
    fold v2. fold b2. fold x2.
    destruct (write d1 b2) as [d2|];
      rewrite <- app_assoc; reflexivity. }
  rewrite Hrun. split; [|split].
  - intros Hw1. rewrite Hw1. reflexivity.
  - intros d1 Hw1 Hw2. rewrite Hw1, Hw2. reflexivity.
  - intros d1 d2 Hw1 Hw2. rewrite Hw1, Hw2. reflexivity.
Qed.

(** C5.  For a pin index [p] in [0,7] and a boolean [v], assigning the
    pin's [pullup] attribute and reading it back returns [v]; the whole
    sequence puts exactly one transaction on the bus, the write of the
    PULLUP register, so the read-back is served from the shadow byte. *)
Theorem pullup_round_trip (p : Z) (v : bool) (w : world D) (d' : D) :
  0 <= p <= 7 ->
  let b :=
    Z.land (if v then Z.lor (_pullup (xra w)) (Z.shiftl 1 p)
            else Z.land (_pullup (xra w)) (Z.lnot (Z.shiftl 1 p))) 0xFF in
  write (i2c_device w) [_XRA1200_REGISTER_PULLUP; b] = Some d' ->
  (pullup_setter (mkDigitalInOut p) v ;; pullup (mkDigitalInOut p)) w
  = (Ok v,
     mkWorld (shadow_set S_pullup b (xra w)) d'
       (log w ++ [TxWrite [_XRA1200_REGISTER_PULLUP; b]])).
Proof.
  intros Hp b Hw. unfold bind, pullup_setter, pullup.
  rewrite cached_bit_setter_run by lia. rewrite set_register_run.
  simpl shadow_register. simpl shadow_get. fold b. rewrite Hw.
  rewrite cached_bit_run by lia. simpl xra. simpl shadow_get.
  f_equal. f_equal. unfold b.
  destruct v.
  - rewrite set_bit_spec by lia. rewrite Z.eqb_refl. reflexivity.
  - rewrite clear_bit_spec by lia. rewrite Z.eqb_refl. reflexivity.
Qed.

End Pins.

Section Direction.

Context {D : Type} `{I2CDevice D}.

Lemma direction_run (p : Z) (w : world D) :
  0 <= p ->
  direction (mkDigitalInOut p) w
  = (Ok (if Z.testbit (_configuration (xra w)) p then INPUT else OUTPUT), w).
Proof.
  intros Hp. unfold direction, bind, get_shadow. simpl.
  rewrite py_lshift_nonneg, py_rshift_nonneg by exact Hp.
  rewrite bit_shiftr by exact Hp. rewrite py_truthy_b2z.
  destruct (Z.testbit (_configuration (xra w)) p); reflexivity.
Qed.

Lemma direction_setter_run (p : Z) (d : Direction) (w : world D) :
  0 <= p ->
  direction_setter (mkDigitalInOut p) (PyDirection d) w
  = set_iodir
      (match d with
       | INPUT => Z.lor (_configuration (xra w)) (Z.shiftl 1 p)
       | OUTPUT => Z.land (_configuration (xra w)) (Z.lnot (Z.shiftl 1 p))
       end) w.
Proof.
  intros Hp. unfold direction_setter, bind, get_iodir, get_shadow.
  destruct d; simpl; rewrite py_lshift_nonneg by exact Hp; reflexivity.
Qed.

(** C6.  For a pin index [p] in [0,7]: assigning [INPUT] to the pin's
    [direction] sends to the CONFIGURATION register of the device, and
    stores in its shadow, the cached byte with bit [p] set; assigning
    [OUTPUT] sends and stores it with bit [p] clear; in both the other seven
    bits are those of the cached byte.  The write is the only transaction:
    when the device accepts it the call returns with the device having
    received the byte, when it refuses the call raises [OSError].  The
    getter reports [INPUT] exactly when bit [p] of the cached CONFIGURATION
    byte is 1, and [OUTPUT] otherwise, without a transaction. *)
Theorem direction_bit_convention (p : Z) (w : world D) :
  0 <= p <= 7 ->
  let pin := mkDigitalInOut p in
  let c := _configuration (xra w) in
  let byte d :=
    Z.land (match d with
            | INPUT => Z.lor c (Z.shiftl 1 p)
            | OUTPUT => Z.land c (Z.lnot (Z.shiftl 1 p))
            end) 0xFF in
  let buf d := [_XRA1200_REGISTER_CONFIGURATION; byte d] in
  let stored d := shadow_set S_configuration (byte d) (xra w) in
  (forall d d',
      write (i2c_device w) (buf d) = Some d' ->
      direction_setter pin (PyDirection d) w
      = (Ok tt, mkWorld (stored d) d' (log w ++ [TxWrite (buf d)])))
  /\ (forall d,
        write (i2c_device w) (buf d) = None ->
        direction_setter pin (PyDirection d) w
        = (Raise OSError,
           mkWorld (stored d) (i2c_device w) (log w ++ [TxWrite (buf d)])))
  /\ Z.testbit (byte INPUT) p = true
  /\ Z.testbit (byte OUTPUT) p = false
  /\ (forall d i, 0 <= i <= 7 -> i <> p ->
        Z.testbit (byte d) i = Z.testbit c i)
  /\ (direction pin w = (Ok INPUT, w) <-> Z.testbit c p = true)
  /\ (direction pin w = (Ok OUTPUT, w) <-> Z.testbit c p = false).
Proof.
  intros Hp pin c byte buf stored.
  assert (Hrun : forall d,
             direction_setter pin (PyDirection d) w
             = match write (i2c_device w) (buf d) with
               | Some d' =>
                   (Ok tt, mkWorld (stored d) d' (log w ++ [TxWrite (buf d)]))
               | None =>
                   (Raise OSError,
                    mkWorld (stored d) (i2c_device w)
                      (log w ++ [TxWrite (buf d)]))
               end).
  { intros d. unfold pin. rewrite direction_setter_run by lia.
    unfold set_iodir. rewrite set_register_run. reflexivity. }
  split.
  { intros d d' Hw. rewrite Hrun, Hw. reflexivity. }
  split.
  { intros d Hw. rewrite Hrun, Hw. reflexivity. }
  split.
  { unfold byte. rewrite set_bit_spec by lia. rewrite Z.eqb_refl.
    reflexivity. }
  split.
  { unfold byte. rewrite clear_bit_spec by lia. rewrite Z.eqb_refl.
    reflexivity. }
  split.
  { intros d i Hi Hne. unfold byte. destruct d.
    - rewrite set_bit_spec by lia.
      destruct (Z.eqb_spec p i); [congruence | reflexivity].
    - rewrite clear_bit_spec by lia.
      destruct (Z.eqb_spec p i); [congruence | reflexivity]. }
  unfold pin. rewrite direction_run by lia. fold c.
  destruct (Z.testbit c p); split; split; intros Hx;
    try reflexivity; discriminate Hx.
Qed.

(** C7.  Assigning to a pin's [direction] an object that is neither
    [Direction.INPUT] nor [Direction.OUTPUT] raises [ValueError] and
    leaves the whole state as it was: no transaction is issued, the
    CONFIGURATION shadow and the device are unchanged. *)
Theorem direction_setter_rejects_other
  (self : DigitalInOut) (val : pyobj) (w : world D) :
  val <> PyDirection INPUT ->
  val <> PyDirection OUTPUT ->
  direction_setter self val w
  = (Raise (ValueError "Expected INPUT or OUTPUT direction!"), w).
Proof.
  intros Hi Ho. unfold direction_setter.
  destruct val as [n|b| |s|d|l| |m]; try reflexivity.
  destruct d; contradiction.
Qed.

(** C8.  [get_pin] raises (an [AssertionError]) exactly when the index is
    outside [0,7], as for 8 and -1, and returns a pin view bound to the
    index exactly when it is inside; in neither case does it touch the
    state, so it issues no transaction. *)
Theorem get_pin_range (pin : Z) (w : world D) :
  (get_pin pin w = (Raise AssertionError, w) <-> ~ 0 <= pin <= 7)
  /\ (get_pin pin w = (Ok (mkDigitalInOut pin), w) <-> 0 <= pin <= 7)
  /\ snd (get_pin pin w) = w
  /\ get_pin 8 w = (Raise AssertionError, w)
  /\ get_pin (-1) w = (Raise AssertionError, w).
Proof.
  unfold get_pin, ret, raise.
  destruct (Z.leb_spec 0 pin), (Z.leb_spec pin 7); simpl;
    repeat split; intros; try discriminate; try reflexivity; lia.
Qed.

(** C10.  [write_pin] raises [AttributeError] for the name [output], for
    every pin index and either value, and leaves the whole state as it
    was: no write is issued, the OUTPUT shadow and the device are
    unchanged. *)
Theorem write_pin_attribute_error (pin : Z) (val : bool) (w : world D) :
  write_pin pin val w = (Raise (AttributeError "output"), w).
Proof.
  unfold write_pin, bind, getattr. destruct val; reflexivity.
Qed.

(** C9.  For pin indices [p] and [q]: reading pin [p]'s
    [interrupt_status] issues exactly one transaction, the live read of
    the INTERRUPT_STATUS register, and reports bit [p] of the byte read,
    with the shadow registers untouched; on a device whose
    INTERRUPT_STATUS is cleared by a read, reading any pin [q] right
    afterwards reports [False]. *)
Theorem interrupt_status_consuming_read
  (p q v : Z) (w : world D) (d' : D) :
  0 <= p <= 7 -> 0 <= q <= 7 ->
  read_clears_interrupt_status D ->
  write_then_readinto (i2c_device w) [_XRA1200_REGISTER_INTERRUPT_STATUS]
  = Some (v, d') ->
  let w1 :=
    mkWorld (xra w) d'
      (log w ++ [TxWriteThenRead [_XRA1200_REGISTER_INTERRUPT_STATUS]]) in
  interrupt_status (mkDigitalInOut p) w = (Ok (Z.testbit v p), w1)
  /\ fst (interrupt_status (mkDigitalInOut q) w1) = Ok false
  /\ log (snd (interrupt_status (mkDigitalInOut q) w1))
     = log w1 ++ [TxWriteThenRead [_XRA1200_REGISTER_INTERRUPT_STATUS]].
Proof.
  intros Hp Hq Hclr Hrd w1.
  destruct (Hclr _ _ _ Hrd) as [d'' Hrd2].
  unfold interrupt_status, bind, get_interrupt_status,
    i2c_write_then_readinto.
  cbn [_pin]. rewrite Hrd. fold w1. simpl i2c_device. rewrite Hrd2.
  rewrite !py_lshift_nonneg by lia. unfold ret.
  rewrite bit_gt_0 by lia. simpl.
  repeat split.
Qed.

End Direction.

(** ** Running a method along successful steps *)

Lemma bind_ok {S A B : Type} (m : M S A) (k : A -> M S B) (s s' : S) (a : A) :
  m s = (Ok a, s') -> bind m k s = k a s'.
Proof. intros Hm. unfold bind. rewrite Hm. reflexivity. Qed.

Lemma bind_assoc {S A B C : Type}
  (m : M S A) (f : A -> M S B) (g : B -> M S C) (s : S) :
  bind (bind m f) g s = bind m (fun a => bind (f a) g) s.
Proof. unfold bind. destruct (m s) as [[a|e] s']; reflexivity. Qed.

Section Construction.

Context {D : Type} `{I2CDevice D}.

Lemma i2c_write_ok (buf : list Z) (w : world D) (d' : D) :
  write (i2c_device w) buf = Some d' ->
  i2c_write buf w = (Ok tt, mkWorld (xra w) d' (log w ++ [TxWrite buf])).
Proof. intros Hw. unfold i2c_write. rewrite Hw. reflexivity. Qed.

Lemma read_back_ok (s : shadow) (w : world D) (v : Z) (d' : D) :
  write_then_readinto (i2c_device w) [shadow_register s] = Some (v, d') ->
  read_back s w
  = (Ok tt,
     mkWorld (shadow_set s v (xra w)) d'
       (log w ++ [TxWriteThenRead [shadow_register s]])).
Proof.
  intros Hr. unfold read_back, bind, i2c_write_then_readinto, put_shadow.
  rewrite Hr. reflexivity.
Qed.

(** Peel the transport's answers off a successful [replay], outermost
    first. *)
Ltac peel Hr :=
  repeat match type of Hr with
    | context [match write ?d ?b with _ => _ end] =>
        let E := fresh "Ew" in
        destruct (write d b) eqn:E; [ | discriminate Hr ]
    | context [match write_then_readinto ?d ?o with _ => _ end] =>
        let E := fresh "Er" in
        destruct (write_then_readinto d o) as [[? ?]|] eqn:E;
        [ | discriminate Hr ]
    end.

(** Keep the state in normal form between steps. *)
Ltac tidy :=
  cbn beta iota delta
    [shadow_set xra i2c_device log
       _p _output _inversion _configuration _pullup _interrupt_enable
       _three_state _rising_edge_interrupt _falling_edge_interrupt
       _input_filter].

Lemma I2CDevice_init_ok (address : Z) (w : world D) (d' : D) :
  write (i2c_device w) [] = Some d' ->
  I2CDevice_init address w
  = (Ok tt, mkWorld (xra w) d' (log w ++ [TxWrite []])).
Proof. intros Hw. unfold I2CDevice_init. rewrite Hw. reflexivity. Qed.

(** One successful step of a method. *)
Ltac step_ok :=
  first [ apply I2CDevice_init_ok; eassumption
        | apply i2c_write_ok; eassumption
        | apply read_back_ok; eassumption
        | reflexivity ].

(** C3, as the code has it.  Construction first builds the device handle,
    whose constructor probes the address with an empty write.  When the
    device answers the probe and accepts what follows, construction with
    [reset=True] then issues exactly the ten writes CONFIGURATION=0xFF,
    INVERSION=0x00, OUTPUT=0xFF, PULLUP=0x00 (0xFF for the P variant),
    INTERRUPT_ENABLE=0x00, THREE_STATE=0x00, INTERRUPT_STATUS=0x00,
    RISING_EDGE_INTERRUPT=0x00, FALLING_EDGE_INTERRUPT=0x00,
    INPUT_FILTER=0xFF, in this order, followed by the nine read-backs,
    whose bytes become the shadow registers; with [reset=False] the probe
    is followed by the nine read-backs only.  [init_transactions] spells
    the register transactions out, and [replay] gives the bytes the device
    answers with. *)
Theorem init_issues_reset_then_read_backs
  (address : Z) (reset p : bool) (w : world D) (d0 : D)
  (vs : list Z) (d' : D) :
  write (i2c_device w) [] = Some d0 ->
  replay d0 (init_transactions reset p) = Some (vs, d') ->
  exists o i c pu ie ts re fe inf,
    vs = [o; i; c; pu; ie; ts; re; fe; inf]
    /\ __init__ address reset p w
       = (Ok tt,
          mkWorld (mkXRA1200 p o i c pu ie ts re fe inf) d'
            (log w ++ TxWrite [] :: init_transactions reset p)).
Proof.
  intros Hprobe Hr.
  unfold init_transactions, reset_writes, read_backs in *.
  destruct reset, p; cbn [app replay] in Hr; peel Hr;
    injection Hr as <- <-;
    do 9 eexists; (split; [reflexivity|]);
    unfold __init__;
    repeat (tidy;
            first [ rewrite bind_assoc | erewrite bind_ok; [ | step_ok ] ]);
    tidy; (erewrite read_back_ok by eassumption);
    tidy; rewrite <- ?app_assoc; reflexivity.
Qed.

End Construction.

(** ** The driver on the answering chip *)

Lemma ideal_chip_read_clears : read_clears_interrupt_status chip.
Proof.
  intros c v c' Hrd. exists (chip_store _XRA1200_REGISTER_INTERRUPT_STATUS 0 c').
  simpl in Hrd. injection Hrd as _ <-. reflexivity.
Qed.

(** C2, on the code.  On a controller whose CONFIGURATION shadow is 0xFF,
    [switch_to_input()] on pin 3 writes 0x09 to the CONFIGURATION register,
    not 0xFF: bits 1, 2, 4, 5, 6 and 7 are cleared.  [switch_to_output] on
    pin 3 writes 0x01.  The bytes come from bit 3 of the shadow shifted down
    to bit 0, not from the shadow byte itself. *)
Theorem switch_to_input_clobbers_configuration :
  let pin := mkDigitalInOut 3 in
  _configuration (xra w_reset) = 0xFF
  /\ switch_to_input pin w_reset
     = (Ok tt,
        mkWorld (shadow_set S_configuration 0x09 reset_xra)
          (chip_store _XRA1200_REGISTER_CONFIGURATION 0x09 (power_on false))
          [TxWrite [_XRA1200_REGISTER_CONFIGURATION; 0x09]])
  /\ Z.lor (_configuration (xra w_reset)) (Z.shiftl 1 3) = 0xFF
  /\ log (snd (switch_to_output pin false w_reset))
     = [TxWrite [_XRA1200_REGISTER_OUTPUT_PORT; 0xF7];
        TxWrite [_XRA1200_REGISTER_CONFIGURATION; 0x01]]
  /\ Z.land (_configuration (xra w_reset)) (Z.lnot (Z.shiftl 1 3)) = 0xF7.
Proof.
  cbv zeta. repeat split.
Qed.

(** C3, as the claim has it, fails: on a chip that answers, construction
    with [reset=False] returns having issued the probe's empty write before
    the nine read-backs, and with [reset=True] before the ten writes; the
    transactions are not the register transactions alone. *)
Lemma init_probes_before_the_sequence :
  fst (__init__ _XRA1200_DEFAULT_I2C_ADDR false false w_reset) = Ok tt
  /\ log (snd (__init__ _XRA1200_DEFAULT_I2C_ADDR false false w_reset))
     = TxWrite [] :: read_backs
  /\ log (snd (__init__ _XRA1200_DEFAULT_I2C_ADDR false false w_reset))
     <> read_backs
  /\ log (snd (__init__ _XRA1200_DEFAULT_I2C_ADDR true false w_reset))
     = TxWrite [] :: reset_writes false ++ read_backs
  /\ log (snd (__init__ _XRA1200_DEFAULT_I2C_ADDR true false w_reset))
     <> reset_writes false ++ read_backs.
Proof.
  split; [reflexivity|]. split; [reflexivity|].
  split; [vm_compute; discriminate|].
  split; [reflexivity|]. vm_compute. discriminate.
Qed.

(** C3 at the default address, with reset, on the plain variant. *)
Lemma init_issues_reset_then_read_backs_witness :
  write (i2c_device w_reset) [] = Some (power_on false)
  /\ replay (power_on false) (init_transactions true false)
     = Some ([0xFF; 0x00; 0xFF; 0x00; 0x00; 0x00; 0x00; 0x00; 0xFF],
             chip_after (power_on false) (init_transactions true false))
  /\ exists o i c pu ie ts re fe inf,
      [0xFF; 0x00; 0xFF; 0x00; 0x00; 0x00; 0x00; 0x00; 0xFF]
      = [o; i; c; pu; ie; ts; re; fe; inf]
      /\ __init__ _XRA1200_DEFAULT_I2C_ADDR true false w_reset
         = (Ok tt,
            mkWorld (mkXRA1200 false o i c pu ie ts re fe inf)
              (chip_after (power_on false) (init_transactions true false))
              (log w_reset ++ TxWrite [] :: init_transactions true false)).
Proof.
  split; [reflexivity|]. split; [reflexivity|].
  apply (init_issues_reset_then_read_backs
           _XRA1200_DEFAULT_I2C_ADDR true false w_reset (power_on false));
    reflexivity.
Defined.

(** C4 on pin 3 of a freshly reset controller: the chip ends with 0xFF in
    OUTPUT and 0x01 in CONFIGURATION, written in this order. *)
Lemma switch_to_output_value_before_direction_witness :
  let b1 := [_XRA1200_REGISTER_OUTPUT_PORT; 0xFF] in
  let b2 := [_XRA1200_REGISTER_CONFIGURATION; 0x01] in
  let x1 := shadow_set S_output 0xFF (xra w_reset) in
  let x2 := shadow_set S_configuration 0x01 x1 in
  let r := switch_to_output (mkDigitalInOut 3) true w_reset in
  0 <= 3 <= 7
  /\ Z.testbit 0xFF 3 = true
  /\ Z.testbit 0x01 3 = false
  /\ (write (i2c_device w_reset) b1 = None ->
      r = (Raise OSError,
           mkWorld x1 (i2c_device w_reset) (log w_reset ++ [TxWrite b1])))
  /\ (forall d1 : chip,
        write (i2c_device w_reset) b1 = Some d1 ->
        write d1 b2 = None ->
        r = (Raise OSError,
             mkWorld x2 d1 (log w_reset ++ [TxWrite b1; TxWrite b2])))
  /\ (forall d1 d2 : chip,
        write (i2c_device w_reset) b1 = Some d1 ->
        write d1 b2 = Some d2 ->
        r = (Ok tt, mkWorld x2 d2 (log w_reset ++ [TxWrite b1; TxWrite b2]))).
Proof.
  intros b1 b2 x1 x2 r. split; [lia|].
  apply (switch_to_output_value_before_direction 3 w_reset). lia.
Defined.

(** C5 on pin 3, enabling the pull-up. *)
Lemma pullup_round_trip_witness :
  0 <= 3 <= 7
  /\ write (i2c_device w_reset) [_XRA1200_REGISTER_PULLUP; 0x08]
     = Some (chip_store _XRA1200_REGISTER_PULLUP 0x08 (power_on false))
  /\ (pullup_setter (mkDigitalInOut 3) true ;; pullup (mkDigitalInOut 3))
       w_reset
     = (Ok true,
        mkWorld (shadow_set S_pullup 0x08 reset_xra)
          (chip_store _XRA1200_REGISTER_PULLUP 0x08 (power_on false))
          [TxWrite [_XRA1200_REGISTER_PULLUP; 0x08]]).
Proof.
  split; [lia|]. split; [reflexivity|].
  apply (pullup_round_trip 3 true w_reset
           (chip_store _XRA1200_REGISTER_PULLUP 0x08 (power_on false)));
    [lia | reflexivity].
Defined.

(** C7 with the integer 2 as the direction. *)
Lemma direction_setter_rejects_other_witness :
  PyInt 2 <> PyDirection INPUT
  /\ PyInt 2 <> PyDirection OUTPUT
  /\ direction_setter (mkDigitalInOut 3) (PyInt 2) w_reset
     = (Raise (ValueError "Expected INPUT or OUTPUT direction!"), w_reset).
Proof.
  split; [discriminate|]. split; [discriminate|].
  apply (direction_setter_rejects_other (mkDigitalInOut 3) (PyInt 2) w_reset);
    discriminate.
Defined.

(** C8 at index 5. *)
Lemma get_pin_range_witness :
  0 <= 5 <= 7 /\ get_pin 5 w_reset = (Ok (mkDigitalInOut 5), w_reset).
Proof.
  split; [lia|]. apply (get_pin_range 5 w_reset). lia.
Defined.

(** C9 with the interrupt of pin 3 latched: pin 3 reads [True], then pin 5
    reads [False]. *)
Lemma interrupt_status_consuming_read_witness :
  0 <= 3 <= 7 /\ 0 <= 5 <= 7
  /\ read_clears_interrupt_status chip
  /\ write_then_readinto (i2c_device w_latched)
       [_XRA1200_REGISTER_INTERRUPT_STATUS]
     = Some (0x08,
             chip_store _XRA1200_REGISTER_INTERRUPT_STATUS 0
               (i2c_device w_latched))
  /\ let w1 :=
       mkWorld (xra w_latched)
         (chip_store _XRA1200_REGISTER_INTERRUPT_STATUS 0
            (i2c_device w_latched))
         (log w_latched
            ++ [TxWriteThenRead [_XRA1200_REGISTER_INTERRUPT_STATUS]]) in
     interrupt_status (mkDigitalInOut 3) w_latched = (Ok true, w1)
     /\ fst (interrupt_status (mkDigitalInOut 5) w1) = Ok false
     /\ log (snd (interrupt_status (mkDigitalInOut 5) w1))
        = log w1 ++ [TxWriteThenRead [_XRA1200_REGISTER_INTERRUPT_STATUS]].
Proof.
  split; [lia|]. split; [lia|]. split; [exact ideal_chip_read_clears|].
  split; [reflexivity|].
  apply (interrupt_status_consuming_read 3 5 0x08 w_latched
           (chip_store _XRA1200_REGISTER_INTERRUPT_STATUS 0
              (i2c_device w_latched)));
    [lia | lia | exact ideal_chip_read_clears | reflexivity].
Defined.

(** C6 on pin 3 of a freshly reset controller. *)
Lemma direction_bit_convention_witness :
  let pin := mkDigitalInOut 3 in
  let c := _configuration (xra w_reset) in
  let byte d :=
    Z.land (match d with
            | INPUT => Z.lor c (Z.shiftl 1 3)
            | OUTPUT => Z.land c (Z.lnot (Z.shiftl 1 3))
            end) 0xFF in
  let buf d := [_XRA1200_REGISTER_CONFIGURATION; byte d] in
  let stored d := shadow_set S_configuration (byte d) (xra w_reset) in
  0 <= 3 <= 7
  /\ (forall d (d' : chip),
        write (i2c_device w_reset) (buf d) = Some d' ->
        direction_setter pin (PyDirection d) w_reset
        = (Ok tt, mkWorld (stored d) d' (log w_reset ++ [TxWrite (buf d)])))
  /\ (forall d,
        write (i2c_device w_reset) (buf d) = None ->
        direction_setter pin (PyDirection d) w_reset
        = (Raise OSError,
           mkWorld (stored d) (i2c_device w_reset)
             (log w_reset ++ [TxWrite (buf d)])))
  /\ Z.testbit (byte INPUT) 3 = true
  /\ Z.testbit (byte OUTPUT) 3 = false
  /\ (forall d i, 0 <= i <= 7 -> i <> 3 ->
        Z.testbit (byte d) i = Z.testbit c i)
  /\ (direction pin w_reset = (Ok INPUT, w_reset) <-> Z.testbit c 3 = true)
  /\ (direction pin w_reset = (Ok OUTPUT, w_reset) <-> Z.testbit c 3 = false).
Proof.
  intros pin c byte buf stored. split; [lia|].
  apply (direction_bit_convention 3 w_reset). lia.
Defined.

(** * Further properties of the driver *)

(** ** Whole-register access *)

Lemma land_255_mod (val : Z) : Z.land val 0xFF = val mod 256.
Proof. change 0xFF with (Z.ones 8). rewrite Z.land_ones by lia. reflexivity. Qed.

Section Registers.

Context {D : Type} `{I2CDevice D}.

(** X1.  Whatever integer a setter is given, negative or wider than a byte,
    the byte it stores and sends is [val mod 256], between 0 and 255; two
    arguments that agree modulo 256 give the same run. *)
Theorem setter_stores_val_mod_256 (s : shadow) (val val' : Z) (w : world D) :
  let b := shadow_get s (xra (snd (setter s val w))) in
  b = val mod 256
  /\ 0 <= b <= 255
  /\ log (snd (setter s val w)) = log w ++ [TxWrite [shadow_register s; b]]
  /\ (val mod 256 = val' mod 256 -> setter s val w = setter s val' w).
Proof.
  cbv zeta. rewrite setter_is_set_register, !set_register_run.
  assert (Hb : shadow_get s
                 (xra (snd
                   match write (i2c_device w) [shadow_register s; Z.land val 255] with
                   | Some d' =>
                       (@Ok unit tt,
                        mkWorld (shadow_set s (Z.land val 255) (xra w)) d'
                          (log w ++ [TxWrite [shadow_register s; Z.land val 255]]))
                   | None =>
                       (Raise OSError,
                        mkWorld (shadow_set s (Z.land val 255) (xra w))
                          (i2c_device w)
                          (log w ++ [TxWrite [shadow_register s; Z.land val 255]]))
                   end)) = Z.land val 255).
  { destruct (write (i2c_device w) _); simpl; apply shadow_get_set. }
  rewrite Hb. rewrite land_255_mod.
  split; [reflexivity|].
  split; [pose proof (Z.mod_pos_bound val 256); lia|].
  split.
  - rewrite <- land_255_mod. destruct (write (i2c_device w) _); reflexivity.
  - intros Heq. rewrite !land_255_mod, Heq. reflexivity.
Qed.

(** X2.  For each of the eight registers that have a getter, a successful
    [set_<r>(val)] followed by [get_<r>()] returns [val mod 256], and the
    pair puts one transaction on the bus, the setter's write. *)
Theorem register_set_then_get
  (s : shadow) (g : M (world D) Z) (val : Z) (w : world D) (d' : D) :
  getter s = Some g ->
  write (i2c_device w) [shadow_register s; val mod 256] = Some d' ->
  (setter s val ;; g) w
  = (Ok (val mod 256),
     mkWorld (shadow_set s (val mod 256) (xra w)) d'
       (log w ++ [TxWrite [shadow_register s; val mod 256]])).
Proof.
  intros Hg Hw. unfold bind.
  rewrite setter_is_set_register, set_register_run, land_255_mod, Hw.
  destruct s; simpl in Hg; try discriminate Hg; injection Hg as <-;
    reflexivity.
Qed.

(** X3.  The live reads ([read_gpio], [get_interrupt_status], a pin's
    [value] and [interrupt_status], [read_pin]) never change a shadow
    register and issue exactly one transaction, the read of their register,
    whatever the device answers and whatever the pin index. *)
Theorem live_reads_leave_shadows (pin : Z) (w : world D) :
  let rd_in := TxWriteThenRead [_XRA1200_REGISTER_INPUT_PORT] in
  let rd_is := TxWriteThenRead [_XRA1200_REGISTER_INTERRUPT_STATUS] in
  (xra (snd (read_gpio w)) = xra w /\ log (snd (read_gpio w)) = log w ++ [rd_in])
  /\ (xra (snd (get_interrupt_status w)) = xra w
      /\ log (snd (get_interrupt_status w)) = log w ++ [rd_is])
  /\ (xra (snd (value (mkDigitalInOut pin) w)) = xra w
      /\ log (snd (value (mkDigitalInOut pin) w)) = log w ++ [rd_in])
  /\ (xra (snd (interrupt_status (mkDigitalInOut pin) w)) = xra w
      /\ log (snd (interrupt_status (mkDigitalInOut pin) w)) = log w ++ [rd_is])
  /\ (xra (snd (read_pin pin w)) = xra w
      /\ log (snd (read_pin pin w)) = log w ++ [rd_in]).
Proof.
  cbv zeta.
  unfold value, interrupt_status, read_pin, read_gpio, get_interrupt_status,
    bind, i2c_write_then_readinto, py_lshift, py_rshift, ret, raise.
  cbn [_pin].
  destruct (write_then_readinto (i2c_device w) [_XRA1200_REGISTER_INPUT_PORT])
    as [[g d1]|];
    destruct (write_then_readinto (i2c_device w)
                [_XRA1200_REGISTER_INTERRUPT_STATUS]) as [[st d2]|];
    destruct (pin <? 0); simpl; repeat split.
Qed.

(** X4.  When the device answers the read of the INPUT register with the
    byte [g], the [value] of a pin with index [p >= 0] is bit [p] of [g],
    [read_pin(p)] is the same bit as the integer 0 or 1, and the two agree:
    [value] is [True] exactly when [read_pin] is 1. *)
Theorem value_and_read_pin_read_the_input_bit
  (p g : Z) (w : world D) (d' : D) :
  0 <= p ->
  write_then_readinto (i2c_device w) [_XRA1200_REGISTER_INPUT_PORT]
  = Some (g, d') ->
  let w' :=
    mkWorld (xra w) d'
      (log w ++ [TxWriteThenRead [_XRA1200_REGISTER_INPUT_PORT]]) in
  value (mkDigitalInOut p) w = (Ok (Z.testbit g p), w')
  /\ read_pin p w = (Ok (Z.b2z (Z.testbit g p)), w')
  /\ (fst (value (mkDigitalInOut p) w) = Ok true
      <-> fst (read_pin p w) = Ok 1).
Proof.
  intros Hp Hrd w'.
  assert (Hv : value (mkDigitalInOut p) w = (Ok (Z.testbit g p), w')).
  { unfold value, bind, read_gpio, i2c_write_then_readinto. rewrite Hrd.
    cbn [_pin]. rewrite py_lshift_nonneg by exact Hp. unfold ret.
    rewrite bit_gt_0 by exact Hp. reflexivity. }
  assert (Hr : read_pin p w = (Ok (Z.b2z (Z.testbit g p)), w')).
  { unfold read_pin, bind, read_gpio, i2c_write_then_readinto. rewrite Hrd.
    rewrite py_rshift_nonneg by exact Hp. unfold ret.
    f_equal. f_equal.
    change 1 with (Z.ones 1). rewrite Z.land_ones by lia.
    change (2 ^ 1) with 2. rewrite <- Z.bit0_mod.
    rewrite Z.shiftr_spec by lia. reflexivity. }
  split; [exact Hv|]. split; [exact Hr|].
  rewrite Hv, Hr. simpl. destruct (Z.testbit g p); simpl;
    split; intros Hx; try reflexivity; discriminate Hx.
Qed.

End Registers.

(** ** Pin attributes *)

Section Attributes.

Context {D : Type} `{I2CDevice D}.

(** The byte a cached attribute's setter computes for pin [p]. *)
Lemma cached_bit_setter_byte (c p i : Z) (v : bool) :
  0 <= p <= 7 -> 0 <= i <= 7 ->
  Z.testbit
    (Z.land (if v then Z.lor c (Z.shiftl 1 p)
             else Z.land c (Z.lnot (Z.shiftl 1 p))) 0xFF) i
  = if p =? i then v else Z.testbit c i.
Proof.
  intros Hp Hi. destruct v.
  - apply set_bit_spec; assumption.
  - apply clear_bit_spec; assumption.
Qed.

(** X5.  For each shadow register [s] and pin [p] in [0,7], a successful
    assignment of [v] to the pin's cached attribute on [s] (as
    [invert_polarity], [pullup], [interrupt_enable], [three_state],
    [rising_edge_interrupt], [falling_edge_interrupt], [input_filter] do)
    issues one write of that register; afterwards pin [p] reads [v], every
    other pin [q] in [0,7] reads the same attribute as before, and the
    attributes on every other register are unchanged for every pin. *)
Theorem cached_attribute_set_get_frame
  (s : shadow) (p : Z) (v : bool) (w : world D) (d' : D) :
  0 <= p <= 7 ->
  let b :=
    Z.land (if v then Z.lor (shadow_get s (xra w)) (Z.shiftl 1 p)
            else Z.land (shadow_get s (xra w)) (Z.lnot (Z.shiftl 1 p))) 0xFF in
  write (i2c_device w) [shadow_register s; b] = Some d' ->
  let w' :=
    mkWorld (shadow_set s b (xra w)) d'
      (log w ++ [TxWrite [shadow_register s; b]]) in
  cached_bit_setter s (mkDigitalInOut p) v w = (Ok tt, w')
  /\ cached_bit s (mkDigitalInOut p) w' = (Ok v, w')
  /\ (forall q, 0 <= q <= 7 -> q <> p ->
        fst (cached_bit s (mkDigitalInOut q) w')
        = fst (cached_bit s (mkDigitalInOut q) w))
  /\ (forall t q, t <> s -> 0 <= q ->
        fst (cached_bit t (mkDigitalInOut q) w')
        = fst (cached_bit t (mkDigitalInOut q) w)).
Proof.
  intros Hp b Hw w'.
  split.
  { rewrite cached_bit_setter_run by lia. rewrite set_register_run.
    fold b. rewrite Hw. reflexivity. }
  split.
  { rewrite cached_bit_run by lia. unfold w'. cbn [xra].
    rewrite shadow_get_set. unfold b.
    rewrite cached_bit_setter_byte by lia. rewrite Z.eqb_refl. reflexivity. }
  split.
  - intros q Hq Hne. rewrite !cached_bit_run by lia. unfold w'. cbn [xra fst].
    rewrite shadow_get_set. unfold b.
    rewrite cached_bit_setter_byte by lia.
    destruct (Z.eqb_spec p q); [congruence | reflexivity].
  - intros t q Hne Hq. rewrite !cached_bit_run by lia. unfold w'.
    cbn [xra fst]. rewrite shadow_get_set_other by congruence. reflexivity.
Qed.

(** X6.  For a pin [p] in [0,7], a successful assignment to the pin's
    [value] issues one write of the OUTPUT register; in the byte written and
    cached, bit [p] is the value assigned and the other seven bits are
    those of the cached byte.  The CONFIGURATION shadow, and every shadow
    other than OUTPUT, is as before: the output latch is written also for a
    pin that is an input. *)
Theorem value_setter_sets_one_output_bit
  (p : Z) (v : bool) (w : world D) (d' : D) :
  0 <= p <= 7 ->
  let b :=
    Z.land (if v then Z.lor (_output (xra w)) (Z.shiftl 1 p)
            else Z.land (_output (xra w)) (Z.lnot (Z.shiftl 1 p))) 0xFF in
  write (i2c_device w) [_XRA1200_REGISTER_OUTPUT_PORT; b] = Some d' ->
  value_setter (mkDigitalInOut p) v w
  = (Ok tt,
     mkWorld (shadow_set S_output b (xra w)) d'
       (log w ++ [TxWrite [_XRA1200_REGISTER_OUTPUT_PORT; b]]))
  /\ Z.testbit b p = v
  /\ (forall i, 0 <= i <= 7 -> i <> p ->
        Z.testbit b i = Z.testbit (_output (xra w)) i)
  /\ (forall t, t <> S_output ->
        shadow_get t (shadow_set S_output b (xra w)) = shadow_get t (xra w)).
Proof.
  intros Hp b Hw.
  split.
  { change (value_setter (mkDigitalInOut p) v w)
      with (cached_bit_setter S_output (mkDigitalInOut p) v w).
    rewrite cached_bit_setter_run by lia. rewrite set_register_run.
    cbn [shadow_get shadow_register]. fold b. rewrite Hw. reflexivity. }
  split.
  { unfold b. rewrite cached_bit_setter_byte by lia. rewrite Z.eqb_refl.
    reflexivity. }
  split.
  - intros i Hi Hne. unfold b. rewrite cached_bit_setter_byte by lia.
    destruct (Z.eqb_spec p i); [congruence | reflexivity].
  - intros t Hne. apply shadow_get_set_other. congruence.
Qed.

(** X7.  For a pin [p] in [0,7] and a direction [d], a successful
    assignment of [d] to the pin's [direction] followed by a read of it
    returns [d]; the pair issues one transaction, the CONFIGURATION write,
    and the direction of every other pin in [0,7] is as before. *)
Theorem direction_set_then_get
  (p : Z) (d : Direction) (w : world D) (d' : D) :
  0 <= p <= 7 ->
  let b :=
    Z.land (match d with
            | INPUT => Z.lor (_configuration (xra w)) (Z.shiftl 1 p)
            | OUTPUT => Z.land (_configuration (xra w)) (Z.lnot (Z.shiftl 1 p))
            end) 0xFF in
  write (i2c_device w) [_XRA1200_REGISTER_CONFIGURATION; b] = Some d' ->
  let w' :=
    mkWorld (shadow_set S_configuration b (xra w)) d'
      (log w ++ [TxWrite [_XRA1200_REGISTER_CONFIGURATION; b]]) in
  (direction_setter (mkDigitalInOut p) (PyDirection d) ;;
   direction (mkDigitalInOut p)) w = (Ok d, w')
  /\ (forall q, 0 <= q <= 7 -> q <> p ->
        fst (direction (mkDigitalInOut q) w')
        = fst (direction (mkDigitalInOut q) w)).
Proof.
  intros Hp b Hw w'.
  assert (Hbit : forall i, 0 <= i <= 7 ->
             Z.testbit b i
             = if p =? i then (match d with INPUT => true | OUTPUT => false end)
               else Z.testbit (_configuration (xra w)) i).
  { intros i Hi. unfold b. destruct d.
    - apply set_bit_spec; lia.
    - apply clear_bit_spec; lia. }
  split.
  - unfold bind. rewrite direction_setter_run by lia. unfold set_iodir.
    rewrite set_register_run. cbn [shadow_register]. fold b. rewrite Hw.
    fold w'. rewrite direction_run by lia. unfold w' at 1. cbn [xra].
    change (_configuration (shadow_set S_configuration b (xra w))) with b.
    rewrite Hbit by lia. rewrite Z.eqb_refl. destruct d; reflexivity.
  - intros q Hq Hne. rewrite !direction_run by lia. unfold w'. cbn [xra fst].
    change (_configuration (shadow_set S_configuration b (xra w))) with b.
    rewrite Hbit by lia.
    destruct (Z.eqb_spec p q); [congruence | reflexivity].
Qed.

End Attributes.

(** ** Switching a pin, and pin indices outside [0,7] *)

Lemma testbit_b2z (x : bool) (i : Z) :
  0 <= i -> Z.testbit (Z.b2z x) i = (i =? 0) && x.
Proof.
  intros Hi. destruct x; simpl Z.b2z.
  - change 1 with (2 ^ 0). rewrite Z.pow2_bits_eqb by lia.
    rewrite andb_true_r. apply Z.eqb_sym.
  - rewrite Z.bits_0. symmetry. apply andb_false_r.
Qed.

(** Above bit 7 the mask [1<<p] does not reach the byte. *)
Lemma high_pin_byte (c p : Z) (v : bool) :
  8 <= p ->
  Z.land (if v then Z.lor c (Z.shiftl 1 p)
          else Z.land c (Z.lnot (Z.shiftl 1 p))) 0xFF
  = Z.land c 0xFF.
Proof.
  intros Hp. apply Z.bits_inj'. intros i Hi.
  rewrite !Z.land_spec. change 0xFF with (Z.ones 8).
  rewrite Z.testbit_ones_nonneg by lia.
  destruct (Z.ltb_spec i 8); [|rewrite !andb_false_r; reflexivity].
  rewrite !andb_true_r. destruct v.
  - rewrite Z.lor_spec, testbit_shiftl_1 by lia.
    destruct (Z.eqb_spec p i); [lia | apply orb_false_r].
  - rewrite Z.land_spec, Z.lnot_spec, testbit_shiftl_1 by lia.
    destruct (Z.eqb_spec p i); [lia | apply andb_true_r].
Qed.

Section Switching.

Context {D : Type} `{I2CDevice D}.

(** X8.  For a pin [p] in [0,7], a successful [switch_to_input()] issues
    one write of the CONFIGURATION register and pin [p] then reads
    [INPUT].  The byte written has bit [p] set, bit 0 equal to the former
    bit [p], and no other bit: every pin in [1,7] other than [p] then reads
    [OUTPUT], whatever its direction was. *)
Theorem switch_to_input_effect (p : Z) (w : world D) (d' : D) :
  0 <= p <= 7 ->
  let c := _configuration (xra w) in
  let b := Z.land (Z.lor (Z.b2z (Z.testbit c p)) (Z.shiftl 1 p)) 0xFF in
  write (i2c_device w) [_XRA1200_REGISTER_CONFIGURATION; b] = Some d' ->
  let w' :=
    mkWorld (shadow_set S_configuration b (xra w)) d'
      (log w ++ [TxWrite [_XRA1200_REGISTER_CONFIGURATION; b]]) in
  switch_to_input (mkDigitalInOut p) w = (Ok tt, w')
  /\ direction (mkDigitalInOut p) w' = (Ok INPUT, w')
  /\ (forall i, 0 <= i <= 7 ->
        Z.testbit b i = (i =? p) || ((i =? 0) && Z.testbit c p))
  /\ (forall q, 1 <= q <= 7 -> q <> p ->
        direction (mkDigitalInOut q) w' = (Ok OUTPUT, w')).
Proof.
  intros Hp c b Hw w'.
  assert (Hbit : forall i, 0 <= i <= 7 ->
             Z.testbit b i = (i =? p) || ((i =? 0) && Z.testbit c p)).
  { intros i Hi. unfold b.
    rewrite Z.land_spec, Z.lor_spec, testbit_shiftl_1, testbit_255,
      testbit_b2z by lia.
    rewrite andb_true_r, (Z.eqb_sym p i). apply orb_comm. }
  split.
  { rewrite switch_to_input_run by lia. unfold set_iodir.
    rewrite set_register_run. cbn [shadow_register]. fold c. fold b.
    rewrite Hw. reflexivity. }
  split.
  { rewrite direction_run by lia. unfold w' at 1. cbn [xra].
    change (_configuration (shadow_set S_configuration b (xra w))) with b.
    rewrite Hbit by lia. rewrite Z.eqb_refl. reflexivity. }
  split; [exact Hbit|].
  intros q Hq Hne. rewrite direction_run by lia. unfold w' at 1. cbn [xra].
  change (_configuration (shadow_set S_configuration b (xra w))) with b.
  rewrite Hbit by lia.
  destruct (Z.eqb_spec q p); [congruence|].
  destruct (Z.eqb_spec q 0); [lia | reflexivity].
Qed.

(** X9.  For a pin [p] in [0,7], a [switch_to_output(v)] whose two writes
    are accepted leaves bit [p] of the OUTPUT shadow equal to [v] with the
    other seven bits as before, and pin [p] then reads [OUTPUT].  The
    CONFIGURATION byte written keeps no bit but bit 0, which is the former
    bit [p] when [p] is not 0: every pin in [1,7] then reads [OUTPUT]. *)
Theorem switch_to_output_effect
  (p : Z) (v : bool) (w : world D) (d1 d2 : D) :
  0 <= p <= 7 ->
  let c := _configuration (xra w) in
  let b1 :=
    Z.land (if v then Z.lor (_output (xra w)) (Z.shiftl 1 p)
            else Z.land (_output (xra w)) (Z.lnot (Z.shiftl 1 p))) 0xFF in
  let b2 :=
    Z.land (Z.land (Z.b2z (Z.testbit c p)) (Z.lnot (Z.shiftl 1 p))) 0xFF in
  write (i2c_device w) [_XRA1200_REGISTER_OUTPUT_PORT; b1] = Some d1 ->
  write d1 [_XRA1200_REGISTER_CONFIGURATION; b2] = Some d2 ->
  let w' :=
    mkWorld (shadow_set S_configuration b2 (shadow_set S_output b1 (xra w))) d2
      (log w ++ [TxWrite [_XRA1200_REGISTER_OUTPUT_PORT; b1];
                 TxWrite [_XRA1200_REGISTER_CONFIGURATION; b2]]) in
  switch_to_output (mkDigitalInOut p) v w = (Ok tt, w')
  /\ Z.testbit b1 p = v
  /\ (forall i, 0 <= i <= 7 -> i <> p ->
        Z.testbit b1 i = Z.testbit (_output (xra w)) i)
  /\ (forall i, 0 <= i <= 7 ->
        Z.testbit b2 i = (i =? 0) && negb (p =? 0) && Z.testbit c p)
  /\ (forall q, 1 <= q <= 7 ->
        direction (mkDigitalInOut q) w' = (Ok OUTPUT, w'))
  /\ direction (mkDigitalInOut p) w' = (Ok OUTPUT, w').
Proof.
  intros Hp c b1 b2 Hw1 Hw2 w'.
  assert (Hbit : forall i, 0 <= i <= 7 ->
             Z.testbit b2 i = (i =? 0) && negb (p =? 0) && Z.testbit c p).
  { intros i Hi. unfold b2.
    rewrite !Z.land_spec, Z.lnot_spec, testbit_shiftl_1, testbit_255,
      testbit_b2z by lia.
    rewrite andb_true_r. generalize (Z.testbit c p). intros t.
    destruct (Z.eqb_spec i 0) as [->|Hi0]; [|reflexivity].
    destruct t, (p =? 0); reflexivity. }
  assert (Hdir : forall q, 0 <= q <= 7 -> (q = 0 -> p = 0) ->
             direction (mkDigitalInOut q) w' = (Ok OUTPUT, w')).
  { intros q Hq Hq0. rewrite direction_run by lia. unfold w' at 1. cbn [xra].
    change (_configuration
              (shadow_set S_configuration b2 (shadow_set S_output b1 (xra w))))
      with b2.
    rewrite Hbit by lia.
    destruct (Z.eqb_spec q 0) as [E|E]; [|reflexivity].
    rewrite (Hq0 E). reflexivity. }
  split.
  { rewrite switch_to_output_run by lia. unfold bind, write_gpio, set_iodir.
    rewrite set_register_run. cbn [shadow_register]. fold b1. rewrite Hw1.
    rewrite set_register_run. cbn [shadow_register i2c_device xra log].
    fold c. fold b2. rewrite Hw2. unfold w'. rewrite <- app_assoc.
    reflexivity. }
  split.
  { unfold b1. rewrite cached_bit_setter_byte by lia. rewrite Z.eqb_refl.
    reflexivity. }
  split.
  { intros i Hi Hne. unfold b1. rewrite cached_bit_setter_byte by lia.
    destruct (Z.eqb_spec p i); [congruence | reflexivity]. }
  split; [exact Hbit|].
  split.
  - intros q Hq. apply Hdir; lia.
  - apply Hdir; lia.
Qed.

(** X10.  When the device refuses the OUTPUT write, [switch_to_output]
    raises [OSError] after that one transaction: no CONFIGURATION write is
    issued and the CONFIGURATION shadow is as before. *)
Theorem switch_to_output_stops_at_failed_value_write
  (p : Z) (v : bool) (w : world D) :
  0 <= p ->
  let b1 :=
    Z.land (if v then Z.lor (_output (xra w)) (Z.shiftl 1 p)
            else Z.land (_output (xra w)) (Z.lnot (Z.shiftl 1 p))) 0xFF in
  write (i2c_device w) [_XRA1200_REGISTER_OUTPUT_PORT; b1] = None ->
  let r := switch_to_output (mkDigitalInOut p) v w in
  fst r = Raise OSError
  /\ log (snd r) = log w ++ [TxWrite [_XRA1200_REGISTER_OUTPUT_PORT; b1]]
  /\ _configuration (xra (snd r)) = _configuration (xra w).
Proof.
  intros Hp b1 Hw r. subst r.
  rewrite switch_to_output_run by lia. unfold bind, write_gpio.
  rewrite set_register_run. cbn [shadow_register]. fold b1. rewrite Hw.
  repeat split.
Qed.

(** X11.  On a pin view with a negative index, the cached attributes'
    getters and setters, the [value] setter, the [direction] getter and
    setter, [switch_to_input] and [switch_to_output] all raise [ValueError]
    from the shift [1<<pin] and leave the whole state as it was: nothing
    reaches the bus and no shadow changes. *)
Theorem negative_pin_raises_before_bus
  (p : Z) (s : shadow) (v : bool) (d : Direction) (w : world D) :
  p < 0 ->
  let pin := mkDigitalInOut p in
  let e := (@Raise unit (ValueError "negative shift count"), w) in
  cached_bit_setter s pin v w = e
  /\ value_setter pin v w = e
  /\ direction_setter pin (PyDirection d) w = e
  /\ switch_to_input pin w = e
  /\ switch_to_output pin v w = e
  /\ cached_bit s pin w = (Raise (ValueError "negative shift count"), w)
  /\ direction pin w = (Raise (ValueError "negative shift count"), w).
Proof.
  intros Hp pin e.
  assert (Hs : forall (a : Z) (x : world D),
             py_lshift a p x = (Raise (ValueError "negative shift count"), x)).
  { intros a x. unfold py_lshift. destruct (Z.ltb_spec p 0); [reflexivity|lia]. }
  unfold cached_bit_setter, value_setter, direction_setter, switch_to_input,
    switch_to_output, cached_bit, direction, bind, get_iodir, get_shadow.
  subst pin e. cbn [_pin].
  destruct v, d; cbn [py_eq_direction]; rewrite !Hs; repeat split.
Qed.

(** X12.  On a pin view with a negative index, the live getters [value] and
    [interrupt_status], and [read_pin] with a negative index, first issue
    their read and only then raise [ValueError]: the transaction has
    happened, and with it the device's reaction to the read. *)
Theorem negative_pin_live_read_happens_first
  (p g st : Z) (w : world D) (d1 d2 : D) :
  p < 0 ->
  write_then_readinto (i2c_device w) [_XRA1200_REGISTER_INPUT_PORT]
  = Some (g, d1) ->
  write_then_readinto (i2c_device w) [_XRA1200_REGISTER_INTERRUPT_STATUS]
  = Some (st, d2) ->
  let e := ValueError "negative shift count" in
  value (mkDigitalInOut p) w
  = (Raise e,
     mkWorld (xra w) d1
       (log w ++ [TxWriteThenRead [_XRA1200_REGISTER_INPUT_PORT]]))
  /\ read_pin p w
     = (Raise e,
        mkWorld (xra w) d1
          (log w ++ [TxWriteThenRead [_XRA1200_REGISTER_INPUT_PORT]]))
  /\ interrupt_status (mkDigitalInOut p) w
     = (Raise e,
        mkWorld (xra w) d2
          (log w ++ [TxWriteThenRead [_XRA1200_REGISTER_INTERRUPT_STATUS]])).
Proof.
  intros Hp Hg Hst e.
  unfold value, read_pin, interrupt_status, bind, read_gpio,
    get_interrupt_status, i2c_write_then_readinto, py_lshift, py_rshift.
  cbn [_pin]. rewrite Hg, Hst.
  destruct (Z.ltb_spec p 0); [|lia]. repeat split.
Qed.

(** X13.  On a pin view with an index of 8 or more (the class does not
    check what [get_pin] asserts), assigning a cached attribute sends the
    cached byte back unchanged, for either value; and when the shadow holds
    a byte the attribute reads [False]. *)
Theorem high_pin_setter_has_no_effect
  (s : shadow) (p : Z) (v : bool) (w : world D) :
  8 <= p ->
  0 <= shadow_get s (xra w) <= 255 ->
  cached_bit_setter s (mkDigitalInOut p) v w
  = setter s (shadow_get s (xra w)) w
  /\ shadow_get s (xra (snd (cached_bit_setter s (mkDigitalInOut p) v w)))
     = shadow_get s (xra w)
  /\ cached_bit s (mkDigitalInOut p) w = (Ok false, w).
Proof.
  intros Hp Hc.
  assert (Hrun : cached_bit_setter s (mkDigitalInOut p) v w
                 = setter s (shadow_get s (xra w)) w).
  { rewrite cached_bit_setter_run by lia.
    rewrite setter_is_set_register, !set_register_run.
    rewrite high_pin_byte by lia. reflexivity. }
  split; [exact Hrun|]. split.
  - rewrite Hrun, setter_is_set_register, set_register_run.
    destruct (write (i2c_device w) _); cbn [snd xra];
      rewrite shadow_get_set, land_255_mod; apply Z.mod_small; lia.
  - rewrite cached_bit_run by lia. f_equal. f_equal.
    rewrite <- (Z.mod_small (shadow_get s (xra w)) (2 ^ 8))
      by (change (2 ^ 8) with 256; lia).
    apply Z.mod_pow2_bits_high. lia.
Qed.

End Switching.

(** ** Construction, whatever the device answers *)

Section ConstructionOutcome.

Context {D : Type} `{I2CDevice D}.

Lemma i2c_write_bind {B : Type}
  (buf : list Z) (k : unit -> M (world D) B) (w : world D) :
  bind (i2c_write buf) k w
  = match write (i2c_device w) buf with
    | Some d' => k tt (mkWorld (xra w) d' (log w ++ [TxWrite buf]))
    | None =>
        (Raise OSError,
         mkWorld (xra w) (i2c_device w) (log w ++ [TxWrite buf]))
    end.
Proof.
  unfold bind, i2c_write. destruct (write (i2c_device w) buf); reflexivity.
Qed.

Lemma read_back_run (s : shadow) (w : world D) :
  read_back s w
  = match write_then_readinto (i2c_device w) [shadow_register s] with
    | Some (v, d') =>
        (Ok tt,
         mkWorld (shadow_set s v (xra w)) d'
           (log w ++ [TxWriteThenRead [shadow_register s]]))
    | None =>
        (Raise OSError,
         mkWorld (xra w) (i2c_device w)
           (log w ++ [TxWriteThenRead [shadow_register s]]))
    end.
Proof.
  unfold read_back, bind, i2c_write_then_readinto, put_shadow.
  destruct (write_then_readinto (i2c_device w) [shadow_register s])
    as [[v d']|]; reflexivity.
Qed.

Lemma read_back_bind {B : Type}
  (s : shadow) (k : unit -> M (world D) B) (w : world D) :
  bind (read_back s) k w
  = match write_then_readinto (i2c_device w) [shadow_register s] with
    | Some (v, d') =>
        k tt
          (mkWorld (shadow_set s v (xra w)) d'
             (log w ++ [TxWriteThenRead [shadow_register s]]))
    | None =>
        (Raise OSError,
         mkWorld (xra w) (i2c_device w)
           (log w ++ [TxWriteThenRead [shadow_register s]]))
    end.
Proof.
  unfold bind at 1. rewrite read_back_run.
  destruct (write_then_readinto (i2c_device w) [shadow_register s])
    as [[v d']|]; reflexivity.
Qed.

(** Normal form of the state and of the expected transactions. *)
Ltac settle :=
  cbn beta iota delta
    [shadow_set shadow_register xra i2c_device log fst snd
       _p _output _inversion _configuration _pullup _interrupt_enable
       _three_state _rising_edge_interrupt _falling_edge_interrupt
       _input_filter attempted replay answers shadows_read nth app].

(** The end of a run: both sides are explicit. *)
Ltac done_run := settle; rewrite <- ?app_assoc; reflexivity.

(** Split on the device's answer to the transaction at the head. *)
Ltac answer :=
  settle;
  match goal with
  | |- context [match write ?d ?b with _ => _ end] =>
      destruct (write d b) as [?|]; [ | done_run ]
  | |- context [match write_then_readinto ?d ?o with _ => _ end] =>
      destruct (write_then_readinto d o) as [[? ?]|]; [ | done_run ]
  end.

Lemma I2CDevice_init_bind {B : Type}
  (address : Z) (k : unit -> M (world D) B) (w : world D) :
  bind (I2CDevice_init address) k w
  = match write (i2c_device w) [] with
    | Some d' => k tt (mkWorld (xra w) d' (log w ++ [TxWrite []]))
    | None =>
        match readinto (i2c_device w) with
        | Some (_, d') =>
            k tt (mkWorld (xra w) d' (log w ++ [TxWrite []; TxReadInto]))
        | None =>
            (Raise (ValueError (no_device_message address)),
             mkWorld (xra w) (i2c_device w)
               (log w ++ [TxWrite []; TxReadInto]))
        end
    end.
Proof.
  unfold bind, I2CDevice_init.
  destruct (write (i2c_device w) []) as [d'|]; [reflexivity|].
  destruct (readinto (i2c_device w)) as [[v d']|]; reflexivity.
Qed.

(** The register transactions, from a device that answered the probe. *)
Ltac run_sequence :=
  repeat (settle;
          first [ rewrite bind_assoc
                | rewrite i2c_write_bind; answer
                | rewrite read_back_bind; answer
                | erewrite bind_ok by reflexivity ]);
  settle; rewrite read_back_run; answer; done_run.

(** X14.  Construction first probes the address: an empty write and, when
    that is refused, a one-byte read.  When both are refused it raises
    [ValueError] naming the address, with no register transaction issued.
    Otherwise it issues the transactions of its sequence (the ten reset
    writes when [reset] holds, then the nine read-backs) one after the
    other until the device refuses one, and none after it: it returns when
    the device accepts them all and raises [OSError] otherwise.  The shadow
    registers hold the bytes of the read-backs that were answered, and the
    device is where the last transaction left it. *)
Theorem init_stops_at_first_failure
  (address : Z) (reset p : bool) (w : world D) :
  let r := __init__ address reset p w in
  let ts := init_transactions reset p in
  let outcome d0 :=
    match replay d0 ts with
    | Some _ => Ok tt
    | None => Raise OSError
    end in
  let after d0 probed :=
    mkWorld (shadows_read p (fst (answers d0 ts))) (snd (answers d0 ts))
      (log w ++ probed ++ attempted d0 ts) in
  match write (i2c_device w) [] with
  | Some d0 => r = (outcome d0, after d0 [TxWrite []])
  | None =>
      match readinto (i2c_device w) with
      | Some (_, d0) => r = (outcome d0, after d0 [TxWrite []; TxReadInto])
      | None =>
          r = (Raise (ValueError (no_device_message address)),
               mkWorld (xra w) (i2c_device w)
                 (log w ++ [TxWrite []; TxReadInto]))
      end
  end.
Proof.
  cbv zeta.
  unfold init_transactions, reset_writes, read_backs, __init__.
  rewrite I2CDevice_init_bind.
  destruct (write (i2c_device w) []) as [d0|];
    [ | destruct (readinto (i2c_device w)) as [[v0 d0]|];
        [ | reflexivity ] ];
    erewrite bind_ok by reflexivity;
    destruct reset, p; run_sequence.
Qed.

End ConstructionOutcome.

(** ** The further properties on the answering chip *)

(** X1 with -1 and 0xFF, which agree modulo 256. *)
Lemma setter_stores_val_mod_256_witness :
  (-1) mod 256 = 0xFF mod 256
  /\ set_pullup (-1) w_reset = set_pullup 0xFF w_reset.
Proof.
  split; [reflexivity|].
  apply (setter_stores_val_mod_256 S_pullup (-1) 0xFF w_reset). reflexivity.
Defined.

(** X2 on CONFIGURATION with an argument wider than a byte. *)
Lemma register_set_then_get_witness :
  @getter chip S_configuration = Some get_iodir
  /\ write (i2c_device w_reset) [_XRA1200_REGISTER_CONFIGURATION; 0xF5]
     = Some (chip_store _XRA1200_REGISTER_CONFIGURATION 0xF5 (power_on false))
  /\ (set_iodir 0x1F5 ;; get_iodir) w_reset
     = (Ok 0xF5,
        mkWorld (shadow_set S_configuration 0xF5 reset_xra)
          (chip_store _XRA1200_REGISTER_CONFIGURATION 0xF5 (power_on false))
          [TxWrite [_XRA1200_REGISTER_CONFIGURATION; 0xF5]]).
Proof.
  split; [reflexivity|]. split; [reflexivity|].
  apply (register_set_then_get S_configuration get_iodir 0x1F5 w_reset
           (chip_store _XRA1200_REGISTER_CONFIGURATION 0xF5 (power_on false)));
    reflexivity.
Defined.

(** X4 on pin 3, with only pin 3 high on the INPUT register. *)
Lemma value_and_read_pin_read_the_input_bit_witness :
  let c := chip_store _XRA1200_REGISTER_INPUT_PORT 0x08 (power_on false) in
  let w := mkWorld reset_xra c [] in
  let w' := mkWorld reset_xra c [TxWriteThenRead [_XRA1200_REGISTER_INPUT_PORT]] in
  0 <= 3
  /\ write_then_readinto (i2c_device w) [_XRA1200_REGISTER_INPUT_PORT]
     = Some (0x08, c)
  /\ value (mkDigitalInOut 3) w = (Ok true, w')
  /\ read_pin 3 w = (Ok 1, w')
  /\ (fst (value (mkDigitalInOut 3) w) = Ok true <-> fst (read_pin 3 w) = Ok 1).
Proof.
  intros c w w'. split; [lia|]. split; [reflexivity|].
  apply (value_and_read_pin_read_the_input_bit 3 0x08 w c);
    [lia | reflexivity].
Defined.

(** X5 on the three-state attribute of pin 2. *)
Lemma cached_attribute_set_get_frame_witness :
  let d' := chip_store _XRA1200_REGISTER_THREE_STATE 0x04 (power_on false) in
  let w' :=
    mkWorld (shadow_set S_three_state 0x04 reset_xra) d'
      [TxWrite [_XRA1200_REGISTER_THREE_STATE; 0x04]] in
  0 <= 2 <= 7
  /\ write (i2c_device w_reset) [_XRA1200_REGISTER_THREE_STATE; 0x04] = Some d'
  /\ three_state_setter (mkDigitalInOut 2) true w_reset = (Ok tt, w')
  /\ three_state (mkDigitalInOut 2) w' = (Ok true, w')
  /\ (forall q, 0 <= q <= 7 -> q <> 2 ->
        fst (three_state (mkDigitalInOut q) w')
        = fst (three_state (mkDigitalInOut q) w_reset))
  /\ (forall t q, t <> S_three_state -> 0 <= q ->
        fst (cached_bit t (mkDigitalInOut q) w')
        = fst (cached_bit t (mkDigitalInOut q) w_reset)).
Proof.
  intros d' w'. split; [lia|]. split; [reflexivity|].
  apply (cached_attribute_set_get_frame S_three_state 2 true w_reset d');
    [lia | reflexivity].
Defined.

(** X6 on pin 3, driving it low. *)
Lemma value_setter_sets_one_output_bit_witness :
  let d' := chip_store _XRA1200_REGISTER_OUTPUT_PORT 0xF7 (power_on false) in
  0 <= 3 <= 7
  /\ write (i2c_device w_reset) [_XRA1200_REGISTER_OUTPUT_PORT; 0xF7] = Some d'
  /\ value_setter (mkDigitalInOut 3) false w_reset
     = (Ok tt,
        mkWorld (shadow_set S_output 0xF7 reset_xra) d'
          [TxWrite [_XRA1200_REGISTER_OUTPUT_PORT; 0xF7]])
  /\ Z.testbit 0xF7 3 = false
  /\ (forall i, 0 <= i <= 7 -> i <> 3 ->
        Z.testbit 0xF7 i = Z.testbit (_output (xra w_reset)) i)
  /\ (forall t, t <> S_output ->
        shadow_get t (shadow_set S_output 0xF7 (xra w_reset))
        = shadow_get t (xra w_reset)).
Proof.
  intros d'. split; [lia|]. split; [reflexivity|].
  apply (value_setter_sets_one_output_bit 3 false w_reset d');
    [lia | reflexivity].
Defined.

(** X7 on pin 3, made an output. *)
Lemma direction_set_then_get_witness :
  let d' := chip_store _XRA1200_REGISTER_CONFIGURATION 0xF7 (power_on false) in
  let w' :=
    mkWorld (shadow_set S_configuration 0xF7 reset_xra) d'
      [TxWrite [_XRA1200_REGISTER_CONFIGURATION; 0xF7]] in
  0 <= 3 <= 7
  /\ write (i2c_device w_reset) [_XRA1200_REGISTER_CONFIGURATION; 0xF7]
     = Some d'
  /\ (direction_setter (mkDigitalInOut 3) (PyDirection OUTPUT) ;;
      direction (mkDigitalInOut 3)) w_reset = (Ok OUTPUT, w')
  /\ (forall q, 0 <= q <= 7 -> q <> 3 ->
        fst (direction (mkDigitalInOut q) w')
        = fst (direction (mkDigitalInOut q) w_reset)).
Proof.
  intros d' w'. split; [lia|]. split; [reflexivity|].
  apply (direction_set_then_get 3 OUTPUT w_reset d'); [lia | reflexivity].
Defined.

(** X8 on pin 3 of a controller with every pin an input: pins 1, 2, 4, 5, 6
    and 7 become outputs. *)
Lemma switch_to_input_effect_witness :
  let d' := chip_store _XRA1200_REGISTER_CONFIGURATION 0x09 (power_on false) in
  let w' :=
    mkWorld (shadow_set S_configuration 0x09 reset_xra) d'
      [TxWrite [_XRA1200_REGISTER_CONFIGURATION; 0x09]] in
  0 <= 3 <= 7
  /\ write (i2c_device w_reset) [_XRA1200_REGISTER_CONFIGURATION; 0x09]
     = Some d'
  /\ switch_to_input (mkDigitalInOut 3) w_reset = (Ok tt, w')
  /\ direction (mkDigitalInOut 3) w' = (Ok INPUT, w')
  /\ (forall i, 0 <= i <= 7 ->
        Z.testbit 0x09 i
        = (i =? 3) || ((i =? 0) && Z.testbit (_configuration (xra w_reset)) 3))
  /\ (forall q, 1 <= q <= 7 -> q <> 3 ->
        direction (mkDigitalInOut q) w' = (Ok OUTPUT, w')).
Proof.
  intros d' w'. split; [lia|]. split; [reflexivity|].
  apply (switch_to_input_effect 3 w_reset d'); [lia | reflexivity].
Defined.

(** X9 on pin 3, switched to a high output. *)
Lemma switch_to_output_effect_witness :
  let d1 := chip_store _XRA1200_REGISTER_OUTPUT_PORT 0xFF (power_on false) in
  let d2 := chip_store _XRA1200_REGISTER_CONFIGURATION 0x01 d1 in
  let w' :=
    mkWorld (shadow_set S_configuration 0x01 (shadow_set S_output 0xFF reset_xra))
      d2
      [TxWrite [_XRA1200_REGISTER_OUTPUT_PORT; 0xFF];
       TxWrite [_XRA1200_REGISTER_CONFIGURATION; 0x01]] in
  0 <= 3 <= 7
  /\ write (i2c_device w_reset) [_XRA1200_REGISTER_OUTPUT_PORT; 0xFF] = Some d1
  /\ write d1 [_XRA1200_REGISTER_CONFIGURATION; 0x01] = Some d2
  /\ switch_to_output (mkDigitalInOut 3) true w_reset = (Ok tt, w')
  /\ Z.testbit 0xFF 3 = true
  /\ (forall i, 0 <= i <= 7 -> i <> 3 ->
        Z.testbit 0xFF i = Z.testbit (_output (xra w_reset)) i)
  /\ (forall i, 0 <= i <= 7 ->
        Z.testbit 0x01 i
        = (i =? 0) && negb (3 =? 0)
          && Z.testbit (_configuration (xra w_reset)) 3)
  /\ (forall q, 1 <= q <= 7 -> direction (mkDigitalInOut q) w' = (Ok OUTPUT, w'))
  /\ direction (mkDigitalInOut 3) w' = (Ok OUTPUT, w').
Proof.
  intros d1 d2 w'. split; [lia|]. split; [reflexivity|]. split; [reflexivity|].
  apply (switch_to_output_effect 3 true w_reset d1 d2);
    [lia | reflexivity | reflexivity].
Defined.

(** X10 with no device answering. *)
Lemma switch_to_output_stops_at_failed_value_write_witness :
  let w := mkWorld reset_xra tt [] in
  0 <= 3
  /\ write (i2c_device w) [_XRA1200_REGISTER_OUTPUT_PORT; 0xF7] = None
  /\ fst (switch_to_output (mkDigitalInOut 3) false w) = Raise OSError
  /\ log (snd (switch_to_output (mkDigitalInOut 3) false w))
     = [TxWrite [_XRA1200_REGISTER_OUTPUT_PORT; 0xF7]]
  /\ _configuration (xra (snd (switch_to_output (mkDigitalInOut 3) false w)))
     = 0xFF.
Proof.
  intros w. split; [lia|]. split; [reflexivity|].
  apply (switch_to_output_stops_at_failed_value_write 3 false w);
    [lia | reflexivity].
Defined.

(** X11 on a view with index -1. *)
Lemma negative_pin_raises_before_bus_witness :
  let pin := mkDigitalInOut (-1) in
  let e := (@Raise unit (ValueError "negative shift count"), w_reset) in
  -1 < 0
  /\ pullup_setter pin true w_reset = e
  /\ value_setter pin true w_reset = e
  /\ direction_setter pin (PyDirection OUTPUT) w_reset = e
  /\ switch_to_input pin w_reset = e
  /\ switch_to_output pin true w_reset = e
  /\ pullup pin w_reset = (Raise (ValueError "negative shift count"), w_reset)
  /\ direction pin w_reset
     = (Raise (ValueError "negative shift count"), w_reset).
Proof.
  intros pin e. split; [lia|].
  apply (negative_pin_raises_before_bus (-1) S_pullup true OUTPUT w_reset).
  lia.
Defined.

(** X12 on a view with index -1: the latched interrupt of pin 3 is consumed
    by the read that ends in [ValueError]. *)
Lemma negative_pin_live_read_happens_first_witness :
  let e := ValueError "negative shift count" in
  let c := i2c_device w_latched in
  let c' := chip_store _XRA1200_REGISTER_INTERRUPT_STATUS 0 c in
  -1 < 0
  /\ write_then_readinto c [_XRA1200_REGISTER_INPUT_PORT] = Some (0x00, c)
  /\ write_then_readinto c [_XRA1200_REGISTER_INTERRUPT_STATUS]
     = Some (0x08, c')
  /\ value (mkDigitalInOut (-1)) w_latched
     = (Raise e,
        mkWorld reset_xra c [TxWriteThenRead [_XRA1200_REGISTER_INPUT_PORT]])
  /\ read_pin (-1) w_latched
     = (Raise e,
        mkWorld reset_xra c [TxWriteThenRead [_XRA1200_REGISTER_INPUT_PORT]])
  /\ interrupt_status (mkDigitalInOut (-1)) w_latched
     = (Raise e,
        mkWorld reset_xra c'
          [TxWriteThenRead [_XRA1200_REGISTER_INTERRUPT_STATUS]]).
Proof.
  intros e c c'. split; [lia|]. split; [reflexivity|]. split; [reflexivity|].
  apply (negative_pin_live_read_happens_first (-1) 0x00 0x08 w_latched c c');
    [lia | reflexivity | reflexivity].
Defined.

(** X13 on a view with index 8. *)
Lemma high_pin_setter_has_no_effect_witness :
  8 <= 8
  /\ 0 <= shadow_get S_pullup (xra w_reset) <= 255
  /\ pullup_setter (mkDigitalInOut 8) true w_reset = set_pullup 0 w_reset
  /\ _pullup (xra (snd (pullup_setter (mkDigitalInOut 8) true w_reset))) = 0
  /\ pullup (mkDigitalInOut 8) w_reset = (Ok false, w_reset).
Proof.
  split; [lia|]. split; [simpl; lia|].
  apply (high_pin_setter_has_no_effect S_pullup 8 true w_reset);
    [lia | simpl; lia].
Defined.

(** X14 on a device that answers four transactions and then drops off the
    bus: the probe and three writes are accepted, the fourth write is the
    last transaction and construction raises with no register read back. *)
Lemma init_stops_at_first_failure_witness :
  __init__ _XRA1200_DEFAULT_I2C_ADDR true false
    (mkWorld reset_xra (4%nat, power_on false) [])
  = (Raise OSError,
     mkWorld (mkXRA1200 false 0 0 0 0 0 0 0 0 0)
       (0%nat,
        chip_store _XRA1200_REGISTER_OUTPUT_PORT 0xFF
          (chip_store _XRA1200_REGISTER_INVERSION 0x00
             (chip_store _XRA1200_REGISTER_CONFIGURATION 0xFF
                (power_on false))))
       [TxWrite [];
        TxWrite [_XRA1200_REGISTER_CONFIGURATION; 0xFF];
        TxWrite [_XRA1200_REGISTER_INVERSION; 0x00];
        TxWrite [_XRA1200_REGISTER_OUTPUT_PORT; 0xFF];
        TxWrite [_XRA1200_REGISTER_PULLUP; 0x00]]).
Proof.
  exact (init_stops_at_first_failure _XRA1200_DEFAULT_I2C_ADDR true false
           (mkWorld reset_xra (4%nat, power_on false) [])).
Defined.

(** X14 with no device at the default address. *)
Example init_without_device :
  __init__ _XRA1200_DEFAULT_I2C_ADDR true false (mkWorld reset_xra tt [])
  = (Raise (ValueError "No I2C device at address: 0x20"),
     mkWorld reset_xra tt [TxWrite []; TxReadInto]).
Proof. reflexivity. Qed.
